(** * pg-transactions: connection and transaction handles over a pooled client

    A shallow embedding of [DBConnection.js], [DBTransaction.js] and
    [Metrics.js].  The JavaScript is callback based; the embedding is in
    continuation-passing style over a state-and-exception monad whose state
    (the [World]) holds the process-wide [pg] module state, the environment
    variable, the clock, the heap of connection handles and the trace of
    calls made to the external collaborators (console, pool adapter, raw
    client, user callbacks).

    Conventions of the model:
    - a collaborator that takes a callback ([pg.connect], [client.query])
      calls it exactly once, and the continuation runs at that point; an
      exception that leaves a continuation is the [Throw] result of the run;
    - the callbacks of the caller and the release callback of the adapter
      are opaque: a call to one is an event of the trace, and the release
      callback also acts on the adapter's pools; the library calls the
      caller's callback last on every path, so what the callback goes on to
      do comes after the run;
    - [_getPoolUtilization] also assigns the undeclared variable [size];
      nothing reads it, and it is left out. *)

From Stdlib Require Import ZArith String Ascii List Bool Lia DecimalString DecimalPos.
From stdpp Require Import base list.
Import ListNotations.
Local Open Scope string_scope.
Local Open Scope Z_scope.
Local Open Scope list_scope.
Set Warnings "-register-all".

(** ** JavaScript values *)

(** Numbers.  Only integers arise in this program.  [Int z] is an integer that
    a double holds exactly (|z| <= 2^53); [Huge neg] stands for any integer
    of larger magnitude, whose rounding to a double is not tracked; the
    program only compares such a number with 0 and passes it on.  [Int 0]
    stands for both zeros. *)
Inductive jsnum : Type :=
| NaN
| Int (z : Z)
| Huge (neg : bool).

(** Heap addresses of [DBConnection] objects. *)
Definition loc : Type := nat.

(** A [DBTransaction] object: the one field set by the constructor. *)
Record DBTransactionObj : Type := { conn : loc }.

Inductive jsval : Type :=
| JUndefined
| JNull
| JBool (b : bool)
| JNum (n : jsnum)
| JStr (s : string)
| JArr (xs : list jsval)
| JErr (msg : string)        (* an Error object *)
| JObj (id : nat)            (* any other opaque object, e.g. a query result *)
| JFun (id : nat)            (* a function supplied by the caller *)
| JLit                       (* a function literal of this library, as a value *)
| JConn (l : loc)            (* reference to a DBConnection object *)
| JTxn (t : DBTransactionObj). (* a DBTransaction object *)

(** ToBoolean: the test performed by [if (x)]. *)
Definition truthy (v : jsval) : bool :=
  match v with
  | JUndefined | JNull => false
  | JBool b => b
  | JNum NaN => false
  | JNum (Int z) => negb (z =? 0)
  | JNum (Huge _) => true
  | JStr s => negb (String.eqb s "")
  | _ => true
  end.

(** [x === null || typeof x === "undefined"] *)
Definition is_nullish (v : jsval) : bool :=
  match v with
  | JUndefined | JNull => true
  | _ => false
  end.

(** [x > 0] on a number. *)
Definition num_gt0 (n : jsnum) : bool :=
  match n with
  | NaN => false
  | Int z => 0 <? z
  | Huge neg => negb neg
  end.

(** ** parseInt(string, 10)

    Strings are sequences of code units below 256.  Leading white space is
    skipped, one sign is read, then the longest run of decimal digits; no
    digit gives NaN. *)
Definition is_ws (c : ascii) : bool :=
  let n := nat_of_ascii c in
  ((9 <=? n) && (n <=? 13) || (n =? 32) || (n =? 160))%nat.

Fixpoint trim_start (s : string) : string :=
  match s with
  | String c s' => if is_ws c then trim_start s' else s
  | EmptyString => EmptyString
  end.

Definition digit_of (c : ascii) : option Z :=
  let n := nat_of_ascii c in
  if ((48 <=? n) && (n <=? 57))%nat then Some (Z.of_nat n - 48) else None.

Fixpoint digits_prefix (s : string) : list Z :=
  match s with
  | String c s' =>
      match digit_of c with
      | Some d => d :: digits_prefix s'
      | None => []
      end
  | EmptyString => []
  end.

Definition digits_value (ds : list Z) : Z :=
  fold_left (fun acc d => 10 * acc + d) ds 0.

Definition max_exact : Z := 2 ^ 53.

Definition parseInt10 (input : string) : jsnum :=
  let s := trim_start input in
  let '(neg, body) :=
    match s with
    | String "-"%char s' => (true, s')
    | String "+"%char s' => (false, s')
    | _ => (false, s)
    end in
  match digits_prefix body with
  | [] => NaN
  | ds =>
      let m := digits_value ds in
      if m <=? max_exact then Int (if neg then - m else m) else Huge neg
  end.

(** ToString of what [process.env.X] can be: a string, or undefined. *)
Definition env_to_string (v : option string) : string :=
  match v with
  | Some s => s
  | None => "undefined"
  end.

(** ** The world the library runs in *)

(** A pool of the adapter; [getPoolSize] is what [pool.getPoolSize()]
    answers. *)
Record Pool : Type := { getPoolSize : Z }.

(** [pg.pools.all]: pools by key, in [Object.keys] order; [None] is an entry
    holding null or undefined. *)
Definition PoolsAll : Type := list (string * option Pool).

(** The release callback handed out by [pg.connect]: invoking it is recorded
    in the trace under [rf_id], and it changes the adapter's pools. *)
Record ReleaseFn : Type := {
  rf_id : nat;
  rf_run : jsval -> PoolsAll -> PoolsAll
}.

(** A raw client: [cl_query sql values] is the pair [(err, res)] that
    [client.query(sql, values, callback)] passes to its callback. *)
Record Client : Type := {
  cl_id : nat;
  cl_query : jsval -> jsval -> jsval * jsval
}.

(** What [pg.connect] passes to its callback, and the time it took. *)
Record ConnectOutcome : Type := {
  co_err : jsval;
  co_client : Client;
  co_release : ReleaseFn;
  co_elapsed : Z
}.

(** The [pg] module: [connect], [defaults.poolSize] and [pools.all]. *)
Record Pg : Type := {
  connect : jsval -> PoolsAll -> ConnectOutcome * PoolsAll;
  defaults_poolSize : jsval;
  pools_all : PoolsAll
}.

(** A [DBConnection] object: the three fields set by the constructor. *)
Record DBConnectionObj : Type := {
  client : Client;
  releaseFn : ReleaseFn;
  _released : bool
}.

(** Calls that leave the library, in the order they are made. *)
Inductive Event : Type :=
| ConsoleLog (key : string) (value : jsval)          (* console.log(key, value) *)
| PgConnect (config : jsval)                         (* pg.connect(config, ...) *)
| ClientQuery (client_id : nat) (sql values : jsval) (* client.query(sql, values, ...) *)
| ReleaseCb (rf : nat) (dispose : jsval)             (* releaseFn(dispose) *)
| UserCb (f : nat) (args : list jsval).              (* a caller's callback *)

Record World : Type := {
  env_PGBOUNCER_MAX_CLIENT_CONN : option string;
  pg : Pg;
  heap : list DBConnectionObj;
  now : Z;
  trace : list Event
}.

Definition set_pg (f : Pg -> Pg) (w : World) : World :=
  {| env_PGBOUNCER_MAX_CLIENT_CONN := env_PGBOUNCER_MAX_CLIENT_CONN w;
     pg := f (pg w); heap := heap w; now := now w; trace := trace w |}.

Definition set_heap (f : list DBConnectionObj -> list DBConnectionObj) (w : World) : World :=
  {| env_PGBOUNCER_MAX_CLIENT_CONN := env_PGBOUNCER_MAX_CLIENT_CONN w;
     pg := pg w; heap := f (heap w); now := now w; trace := trace w |}.

Definition set_now (f : Z -> Z) (w : World) : World :=
  {| env_PGBOUNCER_MAX_CLIENT_CONN := env_PGBOUNCER_MAX_CLIENT_CONN w;
     pg := pg w; heap := heap w; now := f (now w); trace := trace w |}.

Definition set_trace (f : list Event -> list Event) (w : World) : World :=
  {| env_PGBOUNCER_MAX_CLIENT_CONN := env_PGBOUNCER_MAX_CLIENT_CONN w;
     pg := pg w; heap := heap w; now := now w; trace := f (trace w) |}.

Definition set_pools_all (f : PoolsAll -> PoolsAll) (p : Pg) : Pg :=
  {| connect := connect p; defaults_poolSize := defaults_poolSize p;
     pools_all := f (pools_all p) |}.

Definition set_defaults_poolSize (v : jsval) (p : Pg) : Pg :=
  {| connect := connect p; defaults_poolSize := v; pools_all := pools_all p |}.

Definition set_released (b : bool) (h : DBConnectionObj) : DBConnectionObj :=
  {| client := client h; releaseFn := releaseFn h; _released := b |}.

(** ** The monad: state passing over [World], with JavaScript exceptions *)

Inductive Res (A : Type) : Type :=
| Normal (a : A)
| Throw (e : jsval).
Arguments Normal {A} a.
Arguments Throw {A} e.

Definition M (A : Type) : Type := World -> Res A * World.

Definition ret {A} (a : A) : M A := fun w => (Normal a, w).

Definition bind {A B} (m : M A) (f : A -> M B) : M B :=
  fun w =>
    match m w with
    | (Normal a, w') => f a w'
    | (Throw e, w') => (Throw e, w')
    end.

Definition throw {A} (e : jsval) : M A := fun w => (Throw e, w).

(** [try { m } catch (e) { handler e }]: the state changes made before the
    exception stay. *)
Definition try_catch {A} (m : M A) (handler : jsval -> M A) : M A :=
  fun w =>
    match m w with
    | (Normal a, w') => (Normal a, w')
    | (Throw e, w') => handler e w'
    end.

Declare Scope js_scope.
Delimit Scope js_scope with js.
Notation "'let*' x := c1 'in' c2" := (bind c1 (fun x => c2))
  (at level 10, x name, c1 at level 100, c2 at level 200) : js_scope.
Notation "c1 ;; c2" := (bind c1 (fun _ => c2))
  (at level 100, c2 at level 200, right associativity) : js_scope.
Local Open Scope js_scope.

Definition emit (e : Event) : M unit :=
  fun w => (Normal tt, set_trace (fun t => t ++ [e]) w).

Definition Date_now : M Z := fun w => (Normal (now w), w).

(** An argument of a call: a value, or a function literal of the library
    itself together with its body. *)
Inductive jsarg : Type :=
| Val (v : jsval)
| Closure (k : list jsval -> M unit).

Definition arg_nullish (a : jsarg) : bool :=
  match a with
  | Val v => is_nullish v
  | Closure _ => false
  end.

Definition arg_truthy (a : jsarg) : bool :=
  match a with
  | Val v => truthy v
  | Closure _ => true
  end.

(** How a callee outside the library sees an argument. *)
Definition arg_value (a : jsarg) : jsval :=
  match a with
  | Val v => v
  | Closure _ => JLit
  end.

(** The [i]-th actual parameter; a missing one is undefined. *)
Definition param (i : nat) (args : list jsval) : jsval := nth i args JUndefined.

Definition TypeError (msg : string) : jsval := JErr (String.append "TypeError: " msg).

(** Calling [f(args)]: a function of the caller is recorded in the trace, a
    literal of the library runs, anything else is not callable. *)
Definition invoke (f : jsarg) (args : list jsval) : M unit :=
  match f with
  | Closure k => k args
  | Val (JFun id) => emit (UserCb id args)
  | Val _ => throw (TypeError "not a function")
  end.

(** ** Metrics.js: the stub sink.  Each operation is one [console.log]. *)
Module Metrics.

Definition measure (key : string) (value : jsval) : M unit :=
  emit (ConsoleLog key value).

Definition timing (key : string) (startTime : Z) : M unit :=
  let* t := Date_now in
  let diff := t - startTime in
  emit (ConsoleLog key (JNum (Int diff))).

Definition increment (key : string) : M unit :=
  emit (ConsoleLog key (JNum (Int 1))).

End Metrics.

(** ** DBConnection.js *)
Module DBConnection.

Definition DEFAULT_CONNECTION_POOL_SIZE : jsnum := Int 100.

(** [new DBConnection(client, releaseFn)]: a fresh object on the heap. *)
Definition new (client : Client) (releaseFn : ReleaseFn) : M loc :=
  fun w =>
    let o := {| client := client; releaseFn := releaseFn; _released := false |} in
    (Normal (length (heap w)), set_heap (fun h => h ++ [o]) w).

(** Reading [this]: every reference the library hands out is on the heap. *)
Definition load (this : loc) : M DBConnectionObj :=
  fun w =>
    match heap w !! this with
    | Some o => (Normal o, w)
    | None => (Throw (TypeError "not a DBConnection"), w)
    end.

Definition store (this : loc) (o : DBConnectionObj) : M unit :=
  fun w => (Normal tt, set_heap (fun h => <[this := o]> h) w).

(** [pg.pools.all[key]] *)
Fixpoint pools_get (key : string) (all : PoolsAll) : option Pool :=
  match all with
  | [] => None
  | (k, p) :: rest => if String.eqb k key then p else pools_get key rest
  end.

Definition _getPoolUtilization : M Z :=
  fun w =>
    let all := pools_all (pg w) in
    let fail := Throw (JErr "DBConnection: Couldn't get pool size. Make sure at least one connection's been made") in
    match map fst all with
    | key :: _ =>
        match pools_get key all with
        | Some pool => (Normal (getPoolSize pool), w)
        | None => (fail, w)
        end
    | [] => (fail, w)
    end.

Definition _getPoolSize : M jsnum :=
  fun w =>
    let defaultPoolSize := parseInt10 (env_to_string (env_PGBOUNCER_MAX_CLIENT_CONN w)) in
    (Normal (if num_gt0 defaultPoolSize
             then defaultPoolSize
             else DEFAULT_CONNECTION_POOL_SIZE), w).

Definition _setPoolSize : M unit :=
  let* n := _getPoolSize in
  fun w => (Normal tt, set_pg (set_defaults_poolSize (JNum n)) w).

(** [this.releaseFn(dispose)] *)
Definition call_releaseFn (f : ReleaseFn) (dispose : jsval) : M unit :=
  emit (ReleaseCb (rf_id f) dispose) ;;
  fun w => (Normal tt, set_pg (set_pools_all (rf_run f dispose)) w).

Definition release (this : loc) (dispose : jsval) : M unit :=
  let* o := load this in
  if _released o then ret tt
  else
    call_releaseFn (releaseFn o) dispose ;;
    store this (set_released true o) ;;
    let* poolUtilization := _getPoolUtilization in
    Metrics.measure "db.txn_conn_pool.release.count" (JNum (Int poolUtilization)).

Definition query (this : loc) (sql values cb : jsarg) : M unit :=
  let '(values, cb) :=
    if arg_nullish cb then (Val (JArr []), values) else (values, cb) in
  let* o := load this in
  emit (ClientQuery (cl_id (client o)) (arg_value sql) (arg_value values)) ;;
  let '(err, res) := cl_query (client o) (arg_value sql) (arg_value values) in
  if truthy err then
    release this (JBool true) ;;
    invoke cb [err]
  else
    invoke cb [JNull; res].

(** [pg.connect(config, callback)]: the adapter's answer, with the pools
    and the clock as the checkout leaves them. *)
Definition pg_connect (config : jsval) : M ConnectOutcome :=
  emit (PgConnect config) ;;
  fun w =>
    let '(oc, all) := connect (pg w) config (pools_all (pg w)) in
    (Normal oc, set_now (fun t => t + co_elapsed oc) (set_pg (set_pools_all (fun _ => all)) w)).

Definition get (config : jsval) (cb : jsarg) : M unit :=
  _setPoolSize ;;
  let* start := Date_now in
  let* oc := pg_connect config in
  let err := co_err oc in
  if negb (is_nullish err) then invoke cb [err]
  else
    try_catch
      (let* poolUtilization := _getPoolUtilization in
       Metrics.measure "db.txn_conn_pool.count" (JNum (Int poolUtilization)))
      (fun _ => ret tt) ;;
    (let* total := (fun w => (Normal (defaults_poolSize (pg w)), w)) in
     Metrics.measure "db.txn_conn_pool.total" total) ;;
    Metrics.increment "db.txn_conn_pool.get" ;;
    Metrics.timing "db.txn_conn_pool.get.latency" start ;;
    let* c := new (co_client oc) (co_release oc) in
    invoke cb [err; JConn c].

Definition begin (config : jsval) (cb : jsarg) : M unit :=
  get config (Closure (fun args =>
    let err := param 0 args in
    let conn := param 1 args in
    if truthy err then invoke cb [err]
    else
      match conn with
      | JConn c =>
          query c (Val (JStr "BEGIN")) (Closure (fun args =>
            let err := param 0 args in
            if truthy err then
              Metrics.increment "db.txn.begin.error" ;;
              invoke cb [err]
            else
              Metrics.increment "db.txn.begin.success" ;;
              invoke cb [JNull; JTxn {| conn := c |}])) (Val JUndefined)
      | _ => throw (TypeError "conn.query is not a function")
      end)).

End DBConnection.

(** ** DBTransaction.js *)
Module DBTransaction.

(** [new DBTransaction(conn)] *)
Definition new (c : loc) : DBTransactionObj := {| conn := c |}.

Definition rollback (this : DBTransactionObj) (cb : jsarg) : M unit :=
  DBConnection.query (conn this) (Val (JStr "ROLLBACK")) (Closure (fun args =>
    let err := param 0 args in
    if truthy err then
      Metrics.increment "db.txn.rollback.error" ;;
      (if arg_truthy cb then invoke cb [err] else ret tt)
    else
      Metrics.increment "db.txn.rollback.success" ;;
      DBConnection.release (conn this) (JBool true) ;;
      (if arg_truthy cb then invoke cb [JNull] else ret tt))) (Val JUndefined).

(** [this.conn.query.apply(this.conn, arguments)] *)
Definition query (this : DBTransactionObj) (arguments : list jsarg) : M unit :=
  let arg i := nth i arguments (Val JUndefined) in
  DBConnection.query (conn this) (arg 0%nat) (arg 1%nat) (arg 2%nat).

Definition commit (this : DBTransactionObj) (cb : jsarg) : M unit :=
  DBConnection.query (conn this) (Val (JStr "COMMIT")) (Closure (fun args =>
    let err := param 0 args in
    if truthy err then
      Metrics.increment "db.txn.commit.error" ;;
      (if arg_truthy cb then invoke cb [err] else ret tt)
    else
      Metrics.increment "db.txn.commit.success" ;;
      DBConnection.release (conn this) (JBool true) ;;
      (if arg_truthy cb then invoke cb [JNull] else ret tt))) (Val JUndefined).

End DBTransaction.

(** ** Calls of a caller *)

Definition is_user_call (e : Event) : bool :=
  match e with
  | UserCb _ _ => true
  | _ => false
  end.

(** The calls to callbacks of the caller in a piece of trace. *)
Definition user_calls (t : list Event) : list Event := List.filter is_user_call t.

(** One call made by a caller on a handle, or on the transaction that owns
    it, with values of the caller as arguments. *)
Inductive op : Type :=
| OpRelease (dispose : jsval)
| OpQuery (sql values cb : jsval)
| OpTxnQuery (arguments : list jsval)
| OpCommit (cb : jsval)
| OpRollback (cb : jsval).

Definition run_op (l : loc) (o : op) : M unit :=
  match o with
  | OpRelease d => DBConnection.release l d
  | OpQuery sql values cb => DBConnection.query l (Val sql) (Val values) (Val cb)
  | OpTxnQuery arguments => DBTransaction.query {| conn := l |} (map Val arguments)
  | OpCommit cb => DBTransaction.commit {| conn := l |} (Val cb)
  | OpRollback cb => DBTransaction.rollback {| conn := l |} (Val cb)
  end.

(** A caller making the calls one after the other, whether or not one of
    them threw. *)
Fixpoint run_ops (l : loc) (ops : list op) (w : World) : World :=
  match ops with
  | [] => w
  | o :: ops' => run_ops l ops' (snd (run_op l o w))
  end.

(** ** Concrete collaborators, used to run the definitions *)
Module Sample.

(** A pool adapter with one pool under the key of the empty config: a
    checkout adds one to its count, a release takes one off. *)
Definition bump (d : Z) (all : PoolsAll) : PoolsAll :=
  match all with
  | (k, Some p) :: rest => (k, Some {| getPoolSize := getPoolSize p + d |}) :: rest
  | _ => all
  end.

Definition release0 : ReleaseFn := {| rf_id := 7; rf_run := fun _ => bump (-1) |}.

Definition ok_client : Client :=
  {| cl_id := 1; cl_query := fun _ _ => (JNull, JObj 0) |}.

Definition dbErr : jsval := JErr "connection failure".

Definition failing_client : Client :=
  {| cl_id := 2; cl_query := fun _ _ => (dbErr, JUndefined) |}.

Definition connect_with (c : Client) (config : jsval) (all : PoolsAll) : ConnectOutcome * PoolsAll :=
  ({| co_err := JNull; co_client := c; co_release := release0; co_elapsed := 3 |},
   match all with
   | [] => [("{}", Some {| getPoolSize := 1 |})]
   | _ => bump 1 all
   end).

Definition connect_refused (config : jsval) (all : PoolsAll) : ConnectOutcome * PoolsAll :=
  ({| co_err := JErr "ECONNREFUSED"; co_client := ok_client; co_release := release0;
      co_elapsed := 3 |}, all).

Definition pg_of (c : jsval -> PoolsAll -> ConnectOutcome * PoolsAll) (all : PoolsAll) : Pg :=
  {| connect := c; defaults_poolSize := JNum (Int 10); pools_all := all |}.

Definition one_pool (n : Z) : PoolsAll := [("{}", Some {| getPoolSize := n |})].

Definition world (p : Pg) (h : list DBConnectionObj) : World :=
  {| env_PGBOUNCER_MAX_CLIENT_CONN := None; pg := p; heap := h; now := 1000; trace := [] |}.

Definition handle (c : Client) (r : bool) : DBConnectionObj :=
  {| client := c; releaseFn := release0; _released := r |}.

(** One live handle at address 0, one pool with one connection out. *)
Definition live_ok : World := world (pg_of connect_refused (one_pool 1)) [handle ok_client false].
Definition live_failing : World :=
  world (pg_of connect_refused (one_pool 1)) [handle failing_client false].

(** The same handles after the adapter has dropped its pools. *)
Definition nopool_ok : World := world (pg_of connect_refused []) [handle ok_client false].
Definition nopool_failing : World :=
  world (pg_of connect_refused []) [handle failing_client false].

Definition txn0 : DBTransactionObj := {| conn := 0%nat |}.

(** An adapter that reports the error [false]: not null, and falsy. *)
Definition connect_false (config : jsval) (all : PoolsAll) : ConnectOutcome * PoolsAll :=
  ({| co_err := JBool false; co_client := ok_client; co_release := release0;
      co_elapsed := 3 |}, all).

Definition fresh_false : World := world (pg_of connect_false []) [].
Definition fresh_ok : World := world (pg_of (connect_with ok_client) []) [].

(** Calls a caller may make on the handle at address 0, in one order. *)
Definition calls : list op :=
  [OpQuery (JStr "SELECT 1 AS foo") JUndefined (JFun 5);
   OpCommit (JFun 6); OpRollback JUndefined; OpRelease (JBool false);
   OpTxnQuery [JStr "SELECT 2"; JFun 8]].

(** A second live handle, at address 1, beside the failing one. *)
Definition two_handles : World :=
  world (pg_of connect_refused (one_pool 2)) [handle failing_client false; handle ok_client false].

(** A handle at address 0 that has been released already. *)
Definition released_ok : World := world (pg_of connect_refused (one_pool 0)) [handle ok_client true].

(** An adapter that checks a client out without listing any pool under
    [pg.pools.all]. *)
Definition connect_unlisted (c : Client) (config : jsval) (all : PoolsAll)
  : ConnectOutcome * PoolsAll :=
  ({| co_err := JNull; co_client := c; co_release := release0; co_elapsed := 3 |}, all).

(** No handle yet; the adapters of the three kinds. *)
Definition fresh_refused : World := world (pg_of connect_refused []) [].
Definition fresh_failing : World := world (pg_of (connect_with failing_client) []) [].
Definition fresh_unlisted_failing : World :=
  world (pg_of (connect_unlisted failing_client) []) [].

End Sample.

(** ** Observations on a run *)

Definition is_release (e : Event) : bool :=
  match e with
  | ReleaseCb _ _ => true
  | _ => false
  end.

(** The invocations of release callbacks in a piece of trace. *)
Definition release_events (t : list Event) : list Event := List.filter is_release t.

(** The released flag of the handle at [l], if there is one. *)
Definition released_at (l : loc) (w : World) : option bool :=
  option_map _released (heap w !! l).

(** What [_getPoolUtilization] answers in [w]. *)
Definition pool_lookup (w : World) : Res Z := fst (DBConnection._getPoolUtilization w).

(** The world right after [this.releaseFn(dispose); this._released = true]. *)
Definition released_world (l : loc) (o : DBConnectionObj) (dispose : jsval) (w : World) : World :=
  set_heap (fun h => <[l := set_released true o]> h)
    (set_pg (set_pools_all (rf_run (releaseFn o) dispose))
       (set_trace (fun t => t ++ [ReleaseCb (rf_id (releaseFn o)) dispose]) w)).

(** A caller making the calls [release(d1); release(d2); ...] on one handle,
    going on to the next call whether or not the previous one threw. *)
Fixpoint release_seq (l : loc) (ds : list jsval) (w : World) : World :=
  match ds with
  | [] => w
  | d :: ds' => release_seq l ds' (snd (DBConnection.release l d w))
  end.

(** The two terminal statements of a transaction. *)
Inductive terminal : Type := Commit | Rollback.

Definition run_terminal (k : terminal) : DBTransactionObj -> jsarg -> M unit :=
  match k with
  | Commit => DBTransaction.commit
  | Rollback => DBTransaction.rollback
  end.

Definition terminal_sql (k : terminal) : jsval :=
  match k with
  | Commit => JStr "COMMIT"
  | Rollback => JStr "ROLLBACK"
  end.

Definition success_metric (k : terminal) : Event :=
  match k with
  | Commit => ConsoleLog "db.txn.commit.success" (JNum (Int 1))
  | Rollback => ConsoleLog "db.txn.rollback.success" (JNum (Int 1))
  end.

Definition failure_metric (k : terminal) : Event :=
  match k with
  | Commit => ConsoleLog "db.txn.commit.error" (JNum (Int 1))
  | Rollback => ConsoleLog "db.txn.rollback.error" (JNum (Int 1))
  end.

(** [if (cb) { cb(args) }] *)
Definition maybe_call (cb : jsarg) (args : list jsval) : M unit :=
  if arg_truthy cb then invoke cb args else ret tt.

(** The handle [get] makes from a checkout. *)
Definition new_handle (oc : ConnectOutcome) : DBConnectionObj :=
  {| client := co_client oc; releaseFn := co_release oc; _released := false |}.

(** What [pg.connect(config, ...)] answers in [w]. *)
Definition connect_outcome (config : jsval) (w : World) : ConnectOutcome :=
  fst (connect (pg w) config (pools_all (pg w))).

(** The world when [pg.connect] calls back: pool size set, checkout made. *)
Definition after_connect (config : jsval) (w : World) : World :=
  snd ((DBConnection._setPoolSize ;; DBConnection.pg_connect config) w).

(** The world in which [get] calls back after a checkout without error: the
    four metrics (the first one only if the lookup finds a pool) and the new
    handle, at the end of the heap. *)
Definition got_world (config : jsval) (w : World) : World :=
  let oc := connect_outcome config w in
  let w1 := after_connect config w in
  let w2 := match pool_lookup w1 with
            | Normal u => set_trace (fun t => t ++ [ConsoleLog "db.txn_conn_pool.count" (JNum (Int u))]) w1
            | Throw _ => w1
            end in
  set_heap (fun h => h ++ [new_handle oc])
    (set_trace (fun t => t ++ [ConsoleLog "db.txn_conn_pool.total" (defaults_poolSize (pg w1));
                               ConsoleLog "db.txn_conn_pool.get" (JNum (Int 1));
                               ConsoleLog "db.txn_conn_pool.get.latency"
                                 (JNum (Int (co_elapsed oc)))]) w2).

(** The ways the override can be, in the words of the configuration
    surface: unset, empty, non-numeric, zero, negative, or a positive
    integer. *)
Inductive override_class : Type :=
| Unset
| Empty
| NonNumeric
| Zero
| Negative
| PositiveInt (n : jsnum).

Definition classify_override (v : option string) : override_class :=
  match v with
  | None => Unset
  | Some EmptyString => Empty
  | Some s =>
      match parseInt10 s with
      | NaN => NonNumeric
      | Int z => if z =? 0 then Zero else if z <? 0 then Negative else PositiveInt (Int z)
      | Huge true => Negative
      | Huge false => PositiveInt (Huge false)
      end
  end.

(** The pool size each class of override stands for. *)
Definition effective_size (c : override_class) : jsnum :=
  match c with
  | PositiveInt n => n
  | _ => Int 100
  end.

(** [process.env.PGBOUNCER_MAX_CLIENT_CONN = v] *)
Definition set_env (v : option string) (w : World) : World :=
  {| env_PGBOUNCER_MAX_CLIENT_CONN := v;
     pg := pg w; heap := heap w; now := now w; trace := trace w |}.

(** The decimal numeral of a positive integer. *)
Definition decimal (p : positive) : string := NilEmpty.string_of_uint (Pos.to_uint p).

Fixpoint uint_digits (d : Decimal.uint) : list Z :=
  match d with
  | Decimal.Nil => []
  | Decimal.D0 d => 0 :: uint_digits d
  | Decimal.D1 d => 1 :: uint_digits d
  | Decimal.D2 d => 2 :: uint_digits d
  | Decimal.D3 d => 3 :: uint_digits d
  | Decimal.D4 d => 4 :: uint_digits d
  | Decimal.D5 d => 5 :: uint_digits d
  | Decimal.D6 d => 6 :: uint_digits d
  | Decimal.D7 d => 7 :: uint_digits d
  | Decimal.D8 d => 8 :: uint_digits d
  | Decimal.D9 d => 9 :: uint_digits d
  end.

(** A computation that calls no release callback and leaves the heap as it
    is, in every world. *)
Definition quiet (m : M unit) : Prop :=
  forall w, exists tl,
    trace (snd (m w)) = trace w ++ tl /\
    release_events tl = [] /\
    heap (snd (m w)) = heap w.

(** From [w] to [w'] the handle [o] at [l] was either left alone, with no
    release callback called, or it was live and has been released: its flag
    set and its release callback called once, with a dispose argument among
    [P]. Nothing else on the heap changed. *)
Definition handle_step (P : jsval -> Prop) (l : loc) (o : DBConnectionObj) (w w' : World) : Prop :=
  exists tl,
    trace w' = trace w ++ tl /\
    ((heap w' = heap w /\ release_events tl = []) \/
     (_released o = false /\
      heap w' = <[l := set_released true o]> (heap w) /\
      exists d, P d /\ release_events tl = [ReleaseCb (rf_id (releaseFn o)) d])).

(** A computation that makes a [handle_step] wherever the handle is on the
    heap. *)
Definition steps (P : jsval -> Prop) (l : loc) (m : M unit) : Prop :=
  forall w o, heap w !! l = Some o -> handle_step P l o w (snd (m w)).

(** The dispose arguments a caller passes to [release] in a list of calls. *)
Fixpoint disposes_of (ops : list op) : list jsval :=
  match ops with
  | [] => []
  | OpRelease d :: ops' => d :: disposes_of ops'
  | _ :: ops' => disposes_of ops'
  end.

(** ** Basic facts about the primitives *)

Lemma getPoolUtilization_pure (w : World) :
  snd (DBConnection._getPoolUtilization w) = w.
Proof.
  unfold DBConnection._getPoolUtilization.
  destruct (map fst (pools_all (pg w))) as [|key ?]; [reflexivity|].
  destruct (DBConnection.pools_get key (pools_all (pg w))); reflexivity.
Qed.

Lemma getPoolUtilization_eta (w : World) :
  DBConnection._getPoolUtilization w = (pool_lookup w, w).
Proof.
  unfold pool_lookup. rewrite <- (getPoolUtilization_pure w) at 3.
  destruct (DBConnection._getPoolUtilization w); reflexivity.
Qed.

Lemma load_Some (w : World) (l : loc) (o : DBConnectionObj) :
  heap w !! l = Some o -> DBConnection.load l w = (Normal o, w).
Proof. intros H. unfold DBConnection.load. rewrite H. reflexivity. Qed.

(** Releasing a released handle does nothing at all. *)
Lemma release_released (w : World) (l : loc) (o : DBConnectionObj) (d : jsval) :
  heap w !! l = Some o -> _released o = true ->
  DBConnection.release l d w = (Normal tt, w).
Proof.
  intros Hl Hr. unfold DBConnection.release, bind.
  rewrite (load_Some _ _ _ Hl), Hr. reflexivity.
Qed.

(** Releasing a live handle: callback, flag, then the utilization metric,
    which is lost together with the normal return when the lookup throws. *)
Lemma release_live (w : World) (l : loc) (o : DBConnectionObj) (d : jsval) :
  heap w !! l = Some o -> _released o = false ->
  DBConnection.release l d w =
    match pool_lookup (released_world l o d w) with
    | Normal u =>
        (Normal tt,
         set_trace (fun t => t ++ [ConsoleLog "db.txn_conn_pool.release.count" (JNum (Int u))])
           (released_world l o d w))
    | Throw e => (Throw e, released_world l o d w)
    end.
Proof.
  intros Hl Hr. unfold DBConnection.release, bind.
  rewrite (load_Some _ _ _ Hl), Hr.
  unfold DBConnection.call_releaseFn, DBConnection.store, bind, emit. cbn beta iota.
  fold (released_world l o d w).
  rewrite getPoolUtilization_eta.
  destruct (pool_lookup (released_world l o d w)); reflexivity.
Qed.

Lemma released_world_trace l o d w :
  trace (released_world l o d w) = trace w ++ [ReleaseCb (rf_id (releaseFn o)) d].
Proof. reflexivity. Qed.

Lemma released_world_flag l o d w :
  heap w !! l = Some o -> released_at l (released_world l o d w) = Some true.
Proof.
  intros Hl. unfold released_at, released_world. cbn.
  rewrite list_lookup_insert_eq; [reflexivity|].
  apply lookup_lt_Some in Hl. exact Hl.
Qed.

Lemma release_seq_released (l : loc) (ds : list jsval) (w : World) (o : DBConnectionObj) :
  heap w !! l = Some o -> _released o = true -> release_seq l ds w = w.
Proof.
  intros Hl Hr. induction ds as [|d ds IH]; [reflexivity|].
  cbn. rewrite (release_released _ _ _ d Hl Hr). exact IH.
Qed.

(** The world a live handle's release ends in, whichever way the lookup goes:
    the handle is stored with the flag set, and the trace has grown by the
    callback and at most the metric. *)
Lemma release_live_end (w : World) (l : loc) (o : DBConnectionObj) (d : jsval) :
  heap w !! l = Some o -> _released o = false ->
  let w1 := snd (DBConnection.release l d w) in
  heap w1 !! l = Some (set_released true o) /\
  exists tl, trace w1 = trace w ++ ReleaseCb (rf_id (releaseFn o)) d :: tl /\
             release_events tl = [].
Proof.
  intros Hl Hr. cbv zeta. rewrite (release_live _ _ _ d Hl Hr).
  assert (Hh : heap (released_world l o d w) !! l = Some (set_released true o)).
  { cbn. apply list_lookup_insert_eq. apply lookup_lt_Some in Hl. exact Hl. }
  destruct (pool_lookup (released_world l o d w)) as [u|e]; cbn [snd].
  - split; [exact Hh|].
    exists [ConsoleLog "db.txn_conn_pool.release.count" (JNum (Int u))].
    split; [|reflexivity]. cbn. rewrite <- app_assoc. reflexivity.
  - split; [exact Hh|]. exists []. split; reflexivity.
Qed.

(** C3. Whatever sequence of release calls is made on a handle, its release
    callback is invoked at most once.  On a handle not yet released the
    first call invokes the callback, with that call's dispose argument, and
    sets the flag; every later call, and every call on a handle already
    released, changes nothing. *)
Theorem release_at_most_once (w : World) (l : loc) (o : DBConnectionObj) (ds : list jsval) :
  heap w !! l = Some o ->
  let w' := release_seq l ds w in
  exists evs,
    trace w' = trace w ++ evs /\
    (length (release_events evs) <= 1)%nat /\
    (_released o = true -> w' = w) /\
    (_released o = false -> forall d rest, ds = d :: rest ->
       release_events evs = [ReleaseCb (rf_id (releaseFn o)) d] /\
       released_at l w' = Some true /\
       w' = snd (DBConnection.release l d w)).
Proof.
  intros Hl w'. subst w'.
  destruct (_released o) eqn:Hr.
  - exists []. rewrite (release_seq_released l ds w o Hl Hr).
    rewrite app_nil_r. split; [reflexivity|]. split; [cbn; lia|].
    split; [reflexivity | discriminate].
  - destruct ds as [|d rest].
    + exists []. cbn. rewrite app_nil_r.
      split; [reflexivity|]. split; [lia|]. split; discriminate.
    + cbn [release_seq].
      destruct (release_live_end w l o d Hl Hr) as [Hh [tl [Ht Hn]]].
      rewrite (release_seq_released l rest _ _ Hh eq_refl).
      exists (ReleaseCb (rf_id (releaseFn o)) d :: tl).
      assert (Hev : release_events (ReleaseCb (rf_id (releaseFn o)) d :: tl)
                    = [ReleaseCb (rf_id (releaseFn o)) d]).
      { unfold release_events in *. cbn. rewrite Hn. reflexivity. }
      split; [exact Ht|]. split; [rewrite Hev; cbn; lia|].
      split; [discriminate|].
      intros _ d' rest' Heq. injection Heq as <- <-.
      split; [exact Hev|]. split; [|reflexivity].
      unfold released_at. rewrite Hh. reflexivity.
Qed.

(** ** query *)

(** The body of [query] once the arguments are normalised, on a handle that
    is on the heap. *)
Lemma query_body (w : World) (l : loc) (o : DBConnectionObj) (sql values cb : jsarg) :
  heap w !! l = Some o -> arg_nullish cb = false ->
  DBConnection.query l sql values cb w =
    let w1 := set_trace
                (fun t => t ++ [ClientQuery (cl_id (client o)) (arg_value sql) (arg_value values)]) w in
    let er := cl_query (client o) (arg_value sql) (arg_value values) in
    if truthy (fst er)
    then (DBConnection.release l (JBool true) ;; invoke cb [fst er]) w1
    else invoke cb [JNull; snd er] w1.
Proof.
  intros Hl Hcb. unfold DBConnection.query. rewrite Hcb.
  unfold bind at 1. rewrite (load_Some _ _ _ Hl).
  unfold bind at 1. unfold emit at 1. cbv zeta.
  destruct (cl_query (client o) (arg_value sql) (arg_value values)) as [err res].
  cbn [fst snd]. destruct (truthy err); reflexivity.
Qed.

(** Success: the callback gets [(null, res)] and nothing else happens; in
    particular the handle is as it was. *)
Lemma query_success (w : World) (l : loc) (o : DBConnectionObj) (sql values : jsarg) (f : nat) :
  heap w !! l = Some o ->
  truthy (fst (cl_query (client o) (arg_value sql) (arg_value values))) = false ->
  DBConnection.query l sql values (Val (JFun f)) w =
    (Normal tt,
     set_trace (fun t => t ++ [ClientQuery (cl_id (client o)) (arg_value sql) (arg_value values);
                               UserCb f [JNull; snd (cl_query (client o) (arg_value sql) (arg_value values))]]) w).
Proof.
  intros Hl He. rewrite (query_body w l o sql values (Val (JFun f)) Hl eq_refl). cbv zeta.
  rewrite He. unfold invoke, emit, set_trace. cbn. rewrite <- app_assoc. reflexivity.
Qed.

(** Error on a live handle whose release finds the pool: release with
    dispose=true, the utilization metric, then the callback with the error. *)
Lemma query_error_released (w : World) (l : loc) (o : DBConnectionObj) (sql values : jsarg)
      (f : nat) (u : Z) :
  heap w !! l = Some o -> _released o = false ->
  let er := cl_query (client o) (arg_value sql) (arg_value values) in
  let q := ClientQuery (cl_id (client o)) (arg_value sql) (arg_value values) in
  truthy (fst er) = true ->
  pool_lookup (released_world l o (JBool true) (set_trace (fun t => t ++ [q]) w)) = Normal u ->
  let r := DBConnection.query l sql values (Val (JFun f)) w in
  fst r = Normal tt /\
  trace (snd r) = trace w ++ [q; ReleaseCb (rf_id (releaseFn o)) (JBool true);
                              ConsoleLog "db.txn_conn_pool.release.count" (JNum (Int u));
                              UserCb f [fst er]] /\
  released_at l (snd r) = Some true.
Proof.
  intros Hl Hr er q He Hu. cbv zeta.
  rewrite (query_body w l o sql values (Val (JFun f)) Hl eq_refl). cbv zeta.
  fold er. rewrite He. unfold bind.
  rewrite (release_live _ l o (JBool true)); [|exact Hl|exact Hr].
  fold q. rewrite Hu. cbn.
  split; [reflexivity|]. split.
  - rewrite <- !app_assoc. reflexivity.
  - unfold released_at. cbn. rewrite list_lookup_insert_eq; [reflexivity|].
    apply lookup_lt_Some in Hl. exact Hl.
Qed.

(** Error on a live handle whose release does not find the pool: the
    exception of the lookup leaves [query] and the callback is never run. *)
Lemma query_error_throws (w : World) (l : loc) (o : DBConnectionObj) (sql values cb : jsarg)
      (e : jsval) :
  heap w !! l = Some o -> _released o = false -> arg_nullish cb = false ->
  let er := cl_query (client o) (arg_value sql) (arg_value values) in
  let q := ClientQuery (cl_id (client o)) (arg_value sql) (arg_value values) in
  truthy (fst er) = true ->
  pool_lookup (released_world l o (JBool true) (set_trace (fun t => t ++ [q]) w)) = Throw e ->
  DBConnection.query l sql values cb w =
    (Throw e, released_world l o (JBool true) (set_trace (fun t => t ++ [q]) w)).
Proof.
  intros Hl Hr Hcb er q He Hu.
  rewrite (query_body w l o sql values _ Hl Hcb). cbv zeta.
  fold er. rewrite He. unfold bind.
  rewrite (release_live _ l o (JBool true)); [|exact Hl|exact Hr].
  fold q. rewrite Hu. reflexivity.
Qed.

(** C10. With a function as callback, [query(sql, cb)] is
    [query(sql, [], cb)]: same result, same final world, for every handle
    reference and every world; and the client is handed the empty array. *)
Theorem query_two_args_is_three_args (l : loc) (sql : jsval) (f : nat) (w : World) :
  DBConnection.query l (Val sql) (Val (JFun f)) (Val JUndefined) w
  = DBConnection.query l (Val sql) (Val (JArr [])) (Val (JFun f)) w
  /\ forall o, heap w !! l = Some o ->
       exists tl, trace (snd (DBConnection.query l (Val sql) (Val (JFun f)) (Val JUndefined) w))
                  = trace w ++ ClientQuery (cl_id (client o)) sql (JArr []) :: tl.
Proof.
  split; [reflexivity|].
  intros o Hl.
  change (DBConnection.query l (Val sql) (Val (JFun f)) (Val JUndefined) w)
    with (DBConnection.query l (Val sql) (Val (JArr [])) (Val (JFun f)) w).
  rewrite (query_body w l o (Val sql) (Val (JArr [])) (Val (JFun f)) Hl eq_refl).
  cbv zeta. cbn [arg_value].
  set (q := ClientQuery (cl_id (client o)) sql (JArr [])).
  set (er := cl_query (client o) sql (JArr [])).
  destruct (truthy (fst er)).
  - unfold bind. destruct (_released o) eqn:Hr.
    + rewrite (release_released _ l o); [|exact Hl|exact Hr].
      exists [UserCb f [fst er]]. cbn. rewrite <- app_assoc. reflexivity.
    + rewrite (release_live _ l o); [|exact Hl|exact Hr].
      destruct (pool_lookup _) as [u|e].
      * eexists. cbn. rewrite <- !app_assoc. reflexivity.
      * eexists. cbn. rewrite <- !app_assoc. reflexivity.
  - exists [UserCb f [JNull; snd er]]. cbn. rewrite <- app_assoc. reflexivity.
Qed.

(** C9. [DBTransaction.query] is [DBConnection.query] on the owned handle
    with the same arguments: the two runs agree on the result and on the
    whole final world (heap, pools, trace), for any argument list; spelled
    out for the three-argument and the two-argument call. *)
Theorem txn_query_forwards (t : DBTransactionObj) (w : World) :
  (forall arguments : list jsarg,
     DBTransaction.query t arguments w
     = DBConnection.query (conn t) (nth 0 arguments (Val JUndefined))
         (nth 1 arguments (Val JUndefined)) (nth 2 arguments (Val JUndefined)) w) /\
  (forall sql values cb : jsarg,
     DBTransaction.query t [sql; values; cb] w = DBConnection.query (conn t) sql values cb w) /\
  (forall sql cb : jsarg,
     DBTransaction.query t [sql; cb] w = DBConnection.query (conn t) sql cb (Val JUndefined) w).
Proof.
  split; [|split]; intros; reflexivity.
Qed.

(** An error reaching [query] through a transaction releases the handle. *)
Corollary txn_query_error_releases (t : DBTransactionObj) (w : World) (o : DBConnectionObj)
      (sql values : jsarg) (f : nat) (u : Z) :
  heap w !! conn t = Some o -> _released o = false ->
  let er := cl_query (client o) (arg_value sql) (arg_value values) in
  let q := ClientQuery (cl_id (client o)) (arg_value sql) (arg_value values) in
  truthy (fst er) = true ->
  pool_lookup (released_world (conn t) o (JBool true) (set_trace (fun t => t ++ [q]) w)) = Normal u ->
  released_at (conn t) (snd (DBTransaction.query t [sql; values; Val (JFun f)] w)) = Some true.
Proof.
  intros Hl Hr er q He Hu.
  change (DBTransaction.query t [sql; values; Val (JFun f)] w)
    with (DBConnection.query (conn t) sql values (Val (JFun f)) w).
  apply (query_error_released w (conn t) o sql values f u Hl Hr He Hu).
Qed.

(** ** commit and rollback *)

(** A call [query(sql, function ...)] with a literal of the library: the
    literal ends up as the callback and the values are the empty array. *)
Lemma query_literal (l : loc) (sql : jsarg) (k : list jsval -> M unit) (w : World) :
  DBConnection.query l sql (Closure k) (Val JUndefined) w
  = DBConnection.query l sql (Val (JArr [])) (Closure k) w.
Proof. reflexivity. Qed.

(** Both terminal statements, with the literal passed to [query] run on the
    client's answer. *)
Lemma terminal_body (k : terminal) (w : World) (t : DBTransactionObj) (o : DBConnectionObj)
      (cb : jsarg) :
  heap w !! conn t = Some o ->
  run_terminal k t cb w =
    let w1 := set_trace
                (fun tr => tr ++ [ClientQuery (cl_id (client o)) (terminal_sql k) (JArr [])]) w in
    let er := cl_query (client o) (terminal_sql k) (JArr []) in
    if truthy (fst er)
    then (DBConnection.release (conn t) (JBool true) ;;
          emit (failure_metric k) ;; maybe_call cb [fst er]) w1
    else (emit (success_metric k) ;;
          DBConnection.release (conn t) (JBool true) ;; maybe_call cb [JNull]) w1.
Proof.
  intros Hl.
  destruct k; unfold run_terminal, DBTransaction.commit, DBTransaction.rollback;
    rewrite query_literal;
    (rewrite (query_body w (conn t) o _ _ (Closure _) Hl eq_refl));
    cbv zeta; cbn [arg_value terminal_sql];
    destruct (truthy (fst (cl_query (client o) _ (JArr [])))) eqn:He;
    unfold bind, invoke, param; cbn [nth]; try rewrite He; cbn [truthy]; reflexivity.
Qed.

(** A caller-supplied callback value: called if truthy; the library's heap
    is not touched, and the trace grows by that call at most. *)
Lemma maybe_call_val (cb : jsval) (args : list jsval) (w : World) :
  exists tl, trace (snd (maybe_call (Val cb) args w)) = trace w ++ tl /\
             release_events tl = [] /\
             heap (snd (maybe_call (Val cb) args w)) = heap w.
Proof.
  unfold maybe_call, arg_truthy.
  destruct (truthy cb).
  - destruct cb; cbn;
      try (exists []; rewrite app_nil_r; repeat split; reflexivity).
    eexists [_]. repeat split; reflexivity.
  - exists []. cbn. rewrite app_nil_r. repeat split; reflexivity.
Qed.

(** C1 (as the code has it). When COMMIT succeeds, commit asks the client,
    emits the success metric and then releases the connection in dispose
    mode: on a handle not yet released the release callback is invoked once,
    with dispose=true and never with dispose=false, and the flag is set; on a
    handle already released no callback is invoked.  rollback does the same
    on a successful ROLLBACK, with its own metric. *)
Theorem terminal_success_release_disposes (k : terminal) (w : World) (t : DBTransactionObj)
      (o : DBConnectionObj) (cb : jsval) :
  heap w !! conn t = Some o ->
  truthy (fst (cl_query (client o) (terminal_sql k) (JArr []))) = false ->
  let w' := snd (run_terminal k t (Val cb) w) in
  exists tl,
    trace w' = trace w
               ++ [ClientQuery (cl_id (client o)) (terminal_sql k) (JArr []); success_metric k]
               ++ (if _released o then [] else [ReleaseCb (rf_id (releaseFn o)) (JBool true)])
               ++ tl /\
    release_events tl = [] /\
    released_at (conn t) w' = Some true.
Proof.
  intros Hl He. cbv zeta.
  rewrite (terminal_body k w t o (Val cb) Hl). cbv zeta. rewrite He.
  set (q := ClientQuery (cl_id (client o)) (terminal_sql k) (JArr [])).
  unfold bind, emit. cbv beta iota.
  set (w2 := set_trace (fun t0 => t0 ++ [success_metric k]) (set_trace (fun tr => tr ++ [q]) w)).
  assert (Hl2 : heap w2 !! conn t = Some o) by exact Hl.
  assert (Ht2 : trace w2 = trace w ++ [q; success_metric k]).
  { unfold w2. cbn. rewrite <- app_assoc. reflexivity. }
  destruct (_released o) eqn:Hr.
  - rewrite (release_released w2 (conn t) o _ Hl2 Hr). cbv beta iota.
    destruct (maybe_call_val cb [JNull] w2) as [tl [Htl [Hn Hh]]].
    exists tl. rewrite Htl, Ht2. split; [rewrite <- app_assoc; reflexivity|].
    split; [exact Hn|].
    unfold released_at. rewrite Hh, Hl2. cbn. rewrite Hr. reflexivity.
  - rewrite (release_live w2 (conn t) o _ Hl2 Hr).
    pose proof (released_world_flag (conn t) o (JBool true) w2 Hl2) as Hf.
    destruct (pool_lookup (released_world (conn t) o (JBool true) w2)) as [u|e];
      cbv beta iota.
    + set (w3 := set_trace _ (released_world (conn t) o (JBool true) w2)).
      destruct (maybe_call_val cb [JNull] w3) as [tl [Htl [Hn Hh]]].
      exists (ConsoleLog "db.txn_conn_pool.release.count" (JNum (Int u)) :: tl).
      rewrite Htl. split; [|split].
      * unfold w3. cbn [trace set_trace]. rewrite released_world_trace, Ht2.
        rewrite <- !app_assoc. reflexivity.
      * unfold release_events in *. cbn. exact Hn.
      * unfold released_at in *. rewrite Hh. exact Hf.
    + exists []. cbn [snd]. rewrite released_world_trace, Ht2, app_nil_r.
      split; [rewrite <- app_assoc; reflexivity|]. split; [reflexivity | exact Hf].
Qed.

Lemma terminal_success_release_disposes_witness :
  heap Sample.live_ok !! conn Sample.txn0 = Some (Sample.handle Sample.ok_client false) /\
  truthy (fst (cl_query Sample.ok_client (terminal_sql Rollback) (JArr []))) = false /\
  exists tl,
    trace (snd (run_terminal Rollback Sample.txn0 (Val (JFun 5)) Sample.live_ok))
    = trace Sample.live_ok
      ++ [ClientQuery 1 (terminal_sql Rollback) (JArr []); success_metric Rollback]
      ++ [ReleaseCb 7 (JBool true)] ++ tl /\
    release_events tl = [] /\
    released_at 0%nat (snd (run_terminal Rollback Sample.txn0 (Val (JFun 5)) Sample.live_ok))
    = Some true.
Proof.
  split; [reflexivity|]. split; [reflexivity|].
  exact (terminal_success_release_disposes Rollback Sample.live_ok Sample.txn0
           (Sample.handle Sample.ok_client false) (JFun 5) eq_refl eq_refl).
Defined.

(** C1 as written fails: on a live handle whose COMMIT succeeds the release
    callback is invoked with dispose=true, and never with dispose=false; on a
    handle released before, a successful COMMIT invokes no release callback. *)
Lemma commit_success_not_pooled :
  truthy (fst (cl_query Sample.ok_client (JStr "COMMIT") (JArr []))) = false /\
  released_at 0%nat Sample.live_ok = Some false /\
  (let w' := snd (DBTransaction.commit Sample.txn0 (Val (JFun 5)) Sample.live_ok) in
   release_events (trace w') = [ReleaseCb 7 (JBool true)] /\
   ~ In (ReleaseCb 7 (JBool false)) (trace w')) /\
  released_at 0%nat Sample.released_ok = Some true /\
  release_events
    (trace (snd (DBTransaction.commit Sample.txn0 (Val (JFun 5)) Sample.released_ok))) = [].
Proof.
  split; [reflexivity|]. split; [reflexivity|]. split.
  - cbv zeta. split; [reflexivity|].
    vm_compute. intros H.
    repeat (destruct H as [H|H]; [discriminate H|]). exact H.
  - split; reflexivity.
Qed.

(** C4 (as the code has it). When COMMIT or ROLLBACK fails, the statement
    went through the handle's [query], whose error path releases first.  A
    handle already released is left as it was: no release callback, the
    failure metric, then the callback with the error.  A handle not yet
    released is released by [query], release callback invoked once with
    dispose=true and flag set, before the terminal statement's own handler
    runs; that handler calls no release, and when the release found the
    pool it emits the failure metric and passes the error to the callback. *)
Theorem terminal_failure_query_releases (k : terminal) (w : World) (t : DBTransactionObj)
      (o : DBConnectionObj) (f : nat) :
  heap w !! conn t = Some o ->
  let er := cl_query (client o) (terminal_sql k) (JArr []) in
  let q := ClientQuery (cl_id (client o)) (terminal_sql k) (JArr []) in
  truthy (fst er) = true ->
  let r := run_terminal k t (Val (JFun f)) w in
  (_released o = true ->
     r = (Normal tt, set_trace (fun tr => tr ++ [q; failure_metric k; UserCb f [fst er]]) w)) /\
  (_released o = false ->
     released_at (conn t) (snd r) = Some true /\
     exists tl,
       trace (snd r) = trace w ++ [q; ReleaseCb (rf_id (releaseFn o)) (JBool true)] ++ tl /\
       release_events tl = [] /\
       forall u,
         pool_lookup (released_world (conn t) o (JBool true) (set_trace (fun tr => tr ++ [q]) w))
         = Normal u ->
         fst r = Normal tt /\
         tl = [ConsoleLog "db.txn_conn_pool.release.count" (JNum (Int u));
               failure_metric k; UserCb f [fst er]]).
Proof.
  intros Hl er q He r. subst r.
  rewrite (terminal_body k w t o (Val (JFun f)) Hl). cbv zeta.
  fold er q. rewrite He.
  set (w1 := set_trace (fun tr => tr ++ [q]) w).
  assert (Hl1 : heap w1 !! conn t = Some o) by exact Hl.
  unfold bind. split; intros Hr.
  - rewrite (release_released w1 (conn t) o _ Hl1 Hr).
    unfold maybe_call. cbn [arg_truthy invoke]. unfold emit, set_trace. cbn.
    rewrite <- !app_assoc. reflexivity.
  - rewrite (release_live w1 (conn t) o _ Hl1 Hr).
    pose proof (released_world_flag (conn t) o (JBool true) w1 Hl1) as Hf.
    destruct (pool_lookup (released_world (conn t) o (JBool true) w1)) as [u|e].
    + split; [exact Hf|].
      exists [ConsoleLog "db.txn_conn_pool.release.count" (JNum (Int u));
              failure_metric k; UserCb f [fst er]].
      split; [cbn; rewrite <- !app_assoc; reflexivity|].
      split; [destruct k; reflexivity|].
      intros u' Hu. injection Hu as <-. split; reflexivity.
    + split; [exact Hf|].
      exists []. split; [cbn; rewrite <- !app_assoc; reflexivity|].
      split; [reflexivity|]. intros u' Hu. discriminate Hu.
Qed.

Lemma terminal_failure_query_releases_witness :
  heap Sample.live_failing !! conn Sample.txn0 = Some (Sample.handle Sample.failing_client false) /\
  truthy (fst (cl_query Sample.failing_client (terminal_sql Commit) (JArr []))) = true /\
  released_at 0%nat (snd (run_terminal Commit Sample.txn0 (Val (JFun 5)) Sample.live_failing))
  = Some true /\
  exists tl,
    trace (snd (run_terminal Commit Sample.txn0 (Val (JFun 5)) Sample.live_failing))
    = trace Sample.live_failing
      ++ [ClientQuery 2 (terminal_sql Commit) (JArr []); ReleaseCb 7 (JBool true)] ++ tl /\
    release_events tl = [] /\
    forall u,
      pool_lookup (released_world 0%nat (Sample.handle Sample.failing_client false) (JBool true)
                     (set_trace (fun tr => tr ++ [ClientQuery 2 (terminal_sql Commit) (JArr [])])
                        Sample.live_failing))
      = Normal u ->
      fst (run_terminal Commit Sample.txn0 (Val (JFun 5)) Sample.live_failing) = Normal tt /\
      tl = [ConsoleLog "db.txn_conn_pool.release.count" (JNum (Int u));
            failure_metric Commit; UserCb 5 [Sample.dbErr]].
Proof.
  split; [reflexivity|]. split; [reflexivity|].
  exact (proj2 (terminal_failure_query_releases Commit Sample.live_failing Sample.txn0
                  (Sample.handle Sample.failing_client false) 5 eq_refl eq_refl) eq_refl).
Defined.

(** C4 as written fails: a failing COMMIT on a live handle invokes the
    release callback and turns the released flag from false to true. *)
Lemma commit_failure_releases :
  truthy (fst (cl_query Sample.failing_client (JStr "COMMIT") (JArr []))) = true /\
  released_at 0%nat Sample.live_failing = Some false /\
  let r := DBTransaction.commit Sample.txn0 (Val (JFun 5)) Sample.live_failing in
  fst r = Normal tt /\
  released_at 0%nat (snd r) = Some true /\
  trace (snd r) = [ClientQuery 2 (JStr "COMMIT") (JArr []);
                   ReleaseCb 7 (JBool true);
                   ConsoleLog "db.txn_conn_pool.release.count" (JNum (Int 0));
                   ConsoleLog "db.txn.commit.error" (JNum (Int 1));
                   UserCb 5 [Sample.dbErr]].
Proof. repeat split. Qed.

(** ** get and begin *)

Lemma after_connect_trace (config : jsval) (w : World) :
  trace (after_connect config w) = trace w ++ [PgConnect config].
Proof.
  unfold after_connect, DBConnection._setPoolSize, DBConnection._getPoolSize,
    DBConnection.pg_connect, bind, emit. cbn.
  destruct (connect (pg w) config (pools_all (pg w))); reflexivity.
Qed.

Lemma after_connect_heap (config : jsval) (w : World) :
  heap (after_connect config w) = heap w.
Proof.
  unfold after_connect, DBConnection._setPoolSize, DBConnection._getPoolSize,
    DBConnection.pg_connect, bind, emit. cbn.
  destruct (connect (pg w) config (pools_all (pg w))); reflexivity.
Qed.

(** A checkout error goes to the callback straight away. *)
Lemma get_refused (config : jsval) (cb : jsarg) (w : World) :
  is_nullish (co_err (connect_outcome config w)) = false ->
  DBConnection.get config cb w
  = invoke cb [co_err (connect_outcome config w)] (after_connect config w).
Proof.
  unfold connect_outcome, after_connect, DBConnection.get, DBConnection._setPoolSize,
    DBConnection._getPoolSize, DBConnection.pg_connect, Date_now, bind, emit. cbn.
  destruct (connect (pg w) config (pools_all (pg w))) as [oc all]. cbn.
  intros ->. reflexivity.
Qed.

(** A checkout without error: metrics, a new handle, then the callback. *)
Lemma get_checked_out (config : jsval) (cb : jsarg) (w : World) :
  is_nullish (co_err (connect_outcome config w)) = true ->
  DBConnection.get config cb w
  = invoke cb [co_err (connect_outcome config w); JConn (length (heap w))] (got_world config w).
Proof.
  unfold got_world.
  rewrite <- (after_connect_heap config w).
  unfold connect_outcome, after_connect, DBConnection.get, DBConnection._setPoolSize,
    DBConnection._getPoolSize, DBConnection.pg_connect, Date_now, bind, emit. cbn.
  destruct (connect (pg w) config (pools_all (pg w))) as [oc all]. cbn.
  intros ->. cbn. unfold try_catch.
  rewrite getPoolUtilization_eta.
  match goal with |- context [pool_lookup ?x] => destruct (pool_lookup x) end; cbn.
  - unfold Metrics.measure, Metrics.increment, Metrics.timing, DBConnection.new,
      Date_now, bind, emit, set_trace, set_heap. cbn.
    rewrite <- !app_assoc. cbn.
    replace (now w + co_elapsed oc - now w) with (co_elapsed oc) by lia. reflexivity.
  - unfold Metrics.measure, Metrics.increment, Metrics.timing, DBConnection.new,
      Date_now, bind, emit, set_trace, set_heap. cbn.
    rewrite <- !app_assoc. cbn.
    replace (now w + co_elapsed oc - now w) with (co_elapsed oc) by lia. reflexivity.
Qed.

(** C7. When the pool adapter reports a checkout error, [get] calls the
    callback with that error alone, and does nothing else: the only calls
    made are the checkout and the callback (no metric, no release), and no
    handle is put on the heap. *)
Theorem get_checkout_error (config : jsval) (f : nat) (w : World) :
  is_nullish (co_err (connect_outcome config w)) = false ->
  let r := DBConnection.get config (Val (JFun f)) w in
  fst r = Normal tt /\
  trace (snd r) = trace w ++ [PgConnect config; UserCb f [co_err (connect_outcome config w)]] /\
  heap (snd r) = heap w.
Proof.
  intros He. cbv zeta. rewrite (get_refused config _ w He).
  cbn. rewrite after_connect_trace, after_connect_heap, <- app_assoc.
  repeat split.
Qed.

Lemma get_checkout_error_witness :
  is_nullish (co_err (connect_outcome (JObj 9) Sample.fresh_refused)) = false /\
  fst (DBConnection.get (JObj 9) (Val (JFun 5)) Sample.fresh_refused) = Normal tt /\
  trace (snd (DBConnection.get (JObj 9) (Val (JFun 5)) Sample.fresh_refused))
  = trace Sample.fresh_refused
    ++ [PgConnect (JObj 9); UserCb 5 [co_err (connect_outcome (JObj 9) Sample.fresh_refused)]] /\
  heap (snd (DBConnection.get (JObj 9) (Val (JFun 5)) Sample.fresh_refused))
  = heap Sample.fresh_refused.
Proof.
  split; [reflexivity|].
  exact (get_checkout_error (JObj 9) 5 Sample.fresh_refused eq_refl).
Defined.

(** In [get] the lookup of the pool utilization sits in a try block: with a
    function as callback [get] returns normally in every world. *)
Lemma get_returns (config : jsval) (f : nat) (w : World) :
  fst (DBConnection.get config (Val (JFun f)) w) = Normal tt.
Proof.
  destruct (is_nullish (co_err (connect_outcome config w))) eqn:He.
  - rewrite (get_checked_out config _ w He). reflexivity.
  - rewrite (get_refused config _ w He). reflexivity.
Qed.

(** C5, at the failing input.  [release] on a live handle while
    [pg.pools.all] is empty: the release callback runs and the flag is set,
    then the exception of [_getPoolUtilization] leaves [release]. *)
Theorem release_lookup_failure_propagates :
  let r := DBConnection.release 0%nat (JBool true) Sample.nopool_ok in
  fst r = Throw (JErr "DBConnection: Couldn't get pool size. Make sure at least one connection's been made") /\
  trace (snd r) = [ReleaseCb 7 (JBool true)] /\
  released_at 0%nat (snd r) = Some true.
Proof. repeat split. Qed.

(** C2, at the failing input.  A query that fails on a live handle while
    [pg.pools.all] is empty: the connection is released with dispose=true,
    then the exception of the lookup in [release] leaves [query]; the
    callback is not called. *)
Theorem query_error_callback_lost :
  let r := DBConnection.query 0%nat (Val (JStr "SELECT 1 AS foo")) (Val (JFun 5)) (Val JUndefined)
             Sample.nopool_failing in
  truthy (fst (cl_query Sample.failing_client (JStr "SELECT 1 AS foo") (JArr []))) = true /\
  released_at 0%nat Sample.nopool_failing = Some false /\
  fst r = Throw (JErr "DBConnection: Couldn't get pool size. Make sure at least one connection's been made") /\
  trace (snd r) = [ClientQuery 2 (JStr "SELECT 1 AS foo") (JArr []); ReleaseCb 7 (JBool true)] /\
  released_at 0%nat (snd r) = Some true.
Proof. repeat split. Qed.

(** C6, at the failing input.  [begin] with an adapter that lists no pool
    and a client on which BEGIN fails: the checkout succeeds, [get] swallows
    the failed lookup, BEGIN fails, [query] releases with dispose=true, and
    the lookup in [release] throws: neither the begin-failure metric nor the
    callback follows. *)
Theorem begin_failure_callback_lost :
  let r := DBConnection.begin (JObj 9) (Val (JFun 5)) Sample.fresh_unlisted_failing in
  is_nullish (co_err (connect_outcome (JObj 9) Sample.fresh_unlisted_failing)) = true /\
  fst r = Throw (JErr "DBConnection: Couldn't get pool size. Make sure at least one connection's been made") /\
  trace (snd r) = [PgConnect (JObj 9);
                   ConsoleLog "db.txn_conn_pool.total" (JNum (Int 100));
                   ConsoleLog "db.txn_conn_pool.get" (JNum (Int 1));
                   ConsoleLog "db.txn_conn_pool.get.latency" (JNum (Int 3));
                   ClientQuery 2 (JStr "BEGIN") (JArr []);
                   ReleaseCb 7 (JBool true)] /\
  released_at 0%nat (snd r) = Some true.
Proof. repeat split. Qed.

Lemma nullish_falsy (v : jsval) : is_nullish v = true -> truthy v = false.
Proof. destruct v; cbn; congruence. Qed.

Lemma got_world_handle (config : jsval) (w : World) :
  heap (got_world config w) !! length (heap w) = Some (new_handle (connect_outcome config w)).
Proof.
  unfold got_world. cbn.
  assert (H : forall w1 : World, heap w1 = heap w ->
            (heap w1 ++ [new_handle (connect_outcome config w)]) !! length (heap w)
            = Some (new_handle (connect_outcome config w))).
  { intros w1 ->. apply list_lookup_middle. reflexivity. }
  destruct (pool_lookup (after_connect config w)); apply H; cbn; apply after_connect_heap.
Qed.

(** After a checkout without error, [begin] issues BEGIN through the new
    handle's [query], the literal of [begin] being the callback. *)
Lemma begin_body (config : jsval) (cb : jsarg) (w : World) :
  is_nullish (co_err (connect_outcome config w)) = true ->
  let c := length (heap w) in
  let o := new_handle (connect_outcome config w) in
  let q := ClientQuery (cl_id (client o)) (JStr "BEGIN") (JArr []) in
  let er := cl_query (client o) (JStr "BEGIN") (JArr []) in
  DBConnection.begin config cb w =
    if truthy (fst er)
    then (DBConnection.release c (JBool true) ;;
          Metrics.increment "db.txn.begin.error" ;; invoke cb [fst er])
           (set_trace (fun t => t ++ [q]) (got_world config w))
    else (Metrics.increment "db.txn.begin.success" ;;
          invoke cb [JNull; JTxn {| conn := c |}])
           (set_trace (fun t => t ++ [q]) (got_world config w)).
Proof.
  intros He c o q er. unfold DBConnection.begin.
  rewrite (get_checked_out config _ w He).
  cbn [invoke param nth]. rewrite (nullish_falsy _ He).
  rewrite query_literal.
  rewrite (query_body (got_world config w) c o _ _ (Closure _) (got_world_handle config w) eq_refl).
  cbv zeta. cbn [arg_value]. fold q er.
  destruct (truthy (fst er)) eqn:Ht; unfold bind, invoke, param; cbn [nth];
    try rewrite Ht; reflexivity.
Qed.

(** X7. BEGIN succeeds: success metric, then the callback with a transaction
    wrapping the new handle, which stays unreleased. *)
Lemma begin_success (config : jsval) (f : nat) (w : World) :
  is_nullish (co_err (connect_outcome config w)) = true ->
  let c := length (heap w) in
  let o := new_handle (connect_outcome config w) in
  truthy (fst (cl_query (client o) (JStr "BEGIN") (JArr []))) = false ->
  let r := DBConnection.begin config (Val (JFun f)) w in
  fst r = Normal tt /\
  trace (snd r) = trace (got_world config w)
                  ++ [ClientQuery (cl_id (client o)) (JStr "BEGIN") (JArr []);
                      ConsoleLog "db.txn.begin.success" (JNum (Int 1));
                      UserCb f [JNull; JTxn {| conn := c |}]] /\
  released_at c (snd r) = Some false.
Proof.
  intros He c o Ht. cbv zeta. rewrite (begin_body config _ w He). cbv zeta.
  fold o. rewrite Ht.
  unfold bind, Metrics.increment, invoke, emit. cbn [fst snd].
  split; [reflexivity|]. split.
  - cbn [trace set_trace]. rewrite <- !app_assoc. reflexivity.
  - unfold released_at. cbn [heap set_trace]. subst c.
    rewrite got_world_handle. reflexivity.
Qed.

(** BEGIN fails and the release, made by [query], finds the pool: the
    handle is released with dispose=true, then the begin-failure metric and
    the callback with the error alone. *)
Lemma begin_failure (config : jsval) (f : nat) (w : World) (u : Z) :
  is_nullish (co_err (connect_outcome config w)) = true ->
  let c := length (heap w) in
  let o := new_handle (connect_outcome config w) in
  let q := ClientQuery (cl_id (client o)) (JStr "BEGIN") (JArr []) in
  let er := cl_query (client o) (JStr "BEGIN") (JArr []) in
  truthy (fst er) = true ->
  pool_lookup (released_world c o (JBool true)
                 (set_trace (fun t => t ++ [q]) (got_world config w))) = Normal u ->
  let r := DBConnection.begin config (Val (JFun f)) w in
  fst r = Normal tt /\
  trace (snd r) = trace (got_world config w)
                  ++ [q; ReleaseCb (rf_id (releaseFn o)) (JBool true);
                      ConsoleLog "db.txn_conn_pool.release.count" (JNum (Int u));
                      ConsoleLog "db.txn.begin.error" (JNum (Int 1));
                      UserCb f [fst er]] /\
  released_at c (snd r) = Some true.
Proof.
  intros He c o q er Ht Hu. cbv zeta. rewrite (begin_body config _ w He). cbv zeta.
  fold c o q er. rewrite Ht. unfold bind.
  set (w1 := set_trace (fun t => t ++ [q]) (got_world config w)) in *.
  assert (Hl : heap w1 !! c = Some o) by exact (got_world_handle config w).
  rewrite (release_live w1 c o _ Hl eq_refl). rewrite Hu.
  pose proof (released_world_flag c o (JBool true) w1 Hl) as Hf.
  cbn. split; [reflexivity|]. split.
  - rewrite <- !app_assoc. reflexivity.
  - exact Hf.
Qed.

(** ** The pool size *)

Lemma digits_prefix_uint (d : Decimal.uint) :
  digits_prefix (NilEmpty.string_of_uint d) = uint_digits d.
Proof. induction d; cbn; [reflexivity | rewrite IHd; reflexivity ..]. Qed.

Lemma digits_fold_acc (d : Decimal.uint) (acc : positive) :
  fold_left (fun a x => 10 * a + x) (uint_digits d) (Z.pos acc) = Z.pos (Pos.of_uint_acc d acc).
Proof.
  revert acc. induction d; intros acc; cbn [uint_digits fold_left Pos.of_uint_acc];
    [reflexivity | ..];
    match goal with
    | |- fold_left _ _ ?a = Z.pos (Pos.of_uint_acc _ ?b) =>
        replace a with (Z.pos b) by lia; apply IHd
    end.
Qed.

Lemma digits_value_uint (d : Decimal.uint) :
  digits_value (uint_digits d) = Z.of_N (Pos.of_uint d).
Proof.
  unfold digits_value.
  induction d; cbn [uint_digits fold_left Pos.of_uint]; [reflexivity | exact IHd | ..];
    match goal with
    | |- fold_left _ _ ?a = Z.of_N (N.pos (Pos.of_uint_acc _ ?b)) =>
        change a with (Z.pos b); apply digits_fold_acc
    end.
Qed.

(** A numeral has no white space or sign to skip. *)
Lemma parseInt10_uint (d : Decimal.uint) :
  d <> Decimal.Nil ->
  parseInt10 (NilEmpty.string_of_uint d)
  = if Z.of_N (Pos.of_uint d) <=? max_exact then Int (Z.of_N (Pos.of_uint d)) else Huge false.
Proof.
  intros Hd. unfold parseInt10.
  assert (Ht : trim_start (NilEmpty.string_of_uint d) = NilEmpty.string_of_uint d)
    by (destruct d; reflexivity).
  rewrite Ht.
  assert (Hs : match NilEmpty.string_of_uint d with
               | String "-"%char s' => (true, s')
               | String "+"%char s' => (false, s')
               | _ => (false, NilEmpty.string_of_uint d)
               end = (false, NilEmpty.string_of_uint d))
    by (destruct d; reflexivity).
  rewrite Hs. rewrite digits_prefix_uint.
  rewrite <- digits_value_uint.
  destruct d; [congruence | reflexivity ..].
Qed.

Lemma parseInt10_decimal (p : positive) :
  parseInt10 (decimal p) = if Z.pos p <=? max_exact then Int (Z.pos p) else Huge false.
Proof.
  unfold decimal. rewrite parseInt10_uint.
  - rewrite Unsigned.of_to. reflexivity.
  - intros E. pose proof (Unsigned.of_to p) as H. rewrite E in H. discriminate H.
Qed.

Lemma parseInt10_minus_decimal (p : positive) :
  parseInt10 (String "-"%char (decimal p))
  = if Z.pos p <=? max_exact then Int (Z.neg p) else Huge true.
Proof.
  unfold parseInt10, decimal.
  change (trim_start (String "-"%char (NilEmpty.string_of_uint (Pos.to_uint p))))
    with (String "-"%char (NilEmpty.string_of_uint (Pos.to_uint p))).
  cbv iota beta. rewrite digits_prefix_uint.
  assert (Hv : digits_value (uint_digits (Pos.to_uint p)) = Z.pos p).
  { rewrite digits_value_uint, Unsigned.of_to. reflexivity. }
  destruct (uint_digits (Pos.to_uint p)) as [|x xs] eqn:E.
  - discriminate Hv.
  - rewrite Hv. reflexivity.
Qed.

Lemma getPoolSize_classified (v : option string) (w : World) :
  fst (DBConnection._getPoolSize (set_env v w)) = Normal (effective_size (classify_override v)).
Proof.
  unfold DBConnection._getPoolSize, classify_override. cbn [fst set_env env_PGBOUNCER_MAX_CLIENT_CONN].
  destruct v as [s|]; [|reflexivity].
  destruct s as [|a s]; [reflexivity|]. cbn [env_to_string].
  destruct (parseInt10 (String a s)) as [|z|[|]]; try reflexivity.
  cbn [num_gt0 effective_size].
  destruct (Z.ltb_spec 0 z), (Z.eqb_spec z 0), (Z.ltb_spec z 0); try lia; reflexivity.
Qed.

(** C8. The pool size [_getPoolSize] computes, which [get] stores in
    [pg.defaults.poolSize] before the checkout, is the override when the
    override parses to a positive integer and 100 when it is unset, empty,
    non-numeric, zero or negative.  In particular the numeral of a positive
    integer gives that integer ("7" gives 7), and an unset or empty override,
    "foo", "0" and the numeral of a negative integer give 100. *)
Theorem pool_size_effective (w : World) :
  fst (DBConnection._getPoolSize w)
  = Normal (effective_size (classify_override (env_PGBOUNCER_MAX_CLIENT_CONN w))) /\
  (forall config,
     defaults_poolSize (pg (after_connect config w))
     = JNum (effective_size (classify_override (env_PGBOUNCER_MAX_CLIENT_CONN w)))) /\
  (forall p, fst (DBConnection._getPoolSize (set_env (Some (decimal p)) w))
             = Normal (if Z.pos p <=? max_exact then Int (Z.pos p) else Huge false)) /\
  fst (DBConnection._getPoolSize (set_env (Some "7") w)) = Normal (Int 7) /\
  fst (DBConnection._getPoolSize (set_env None w)) = Normal (Int 100) /\
  fst (DBConnection._getPoolSize (set_env (Some "") w)) = Normal (Int 100) /\
  fst (DBConnection._getPoolSize (set_env (Some "foo") w)) = Normal (Int 100) /\
  fst (DBConnection._getPoolSize (set_env (Some "0") w)) = Normal (Int 100) /\
  (forall p, fst (DBConnection._getPoolSize (set_env (Some (String "-"%char (decimal p))) w))
             = Normal (Int 100)).
Proof.
  assert (H0 : fst (DBConnection._getPoolSize w)
               = Normal (effective_size (classify_override (env_PGBOUNCER_MAX_CLIENT_CONN w)))).
  { rewrite <- (getPoolSize_classified (env_PGBOUNCER_MAX_CLIENT_CONN w) w). reflexivity. }
  split; [exact H0|]. split.
  - intros config. unfold after_connect, DBConnection._setPoolSize, bind.
    destruct (DBConnection._getPoolSize w) as [r w1] eqn:E. cbn [fst] in H0. subst r.
    assert (w1 = w) by (unfold DBConnection._getPoolSize in E; congruence). subst w1.
    unfold DBConnection.pg_connect, bind, emit. cbn.
    destruct (connect (pg w) config (pools_all (pg w))); reflexivity.
  - split.
    { intros p. unfold DBConnection._getPoolSize.
      cbn [fst set_env env_PGBOUNCER_MAX_CLIENT_CONN env_to_string].
      rewrite parseInt10_decimal. destruct (Z.pos p <=? max_exact); reflexivity. }
    repeat (split; [reflexivity|]).
    intros p. unfold DBConnection._getPoolSize.
    cbn [fst set_env env_PGBOUNCER_MAX_CLIENT_CONN env_to_string].
    rewrite parseInt10_minus_decimal. destruct (Z.pos p <=? max_exact); reflexivity.
Qed.

Lemma release_at_most_once_witness :
  heap Sample.live_ok !! 0%nat = Some (Sample.handle Sample.ok_client false) /\
  exists evs,
    trace (release_seq 0%nat [JBool true; JBool false; JUndefined] Sample.live_ok)
    = trace Sample.live_ok ++ evs /\
    (length (release_events evs) <= 1)%nat /\
    release_events evs = [ReleaseCb 7 (JBool true)] /\
    released_at 0%nat (release_seq 0%nat [JBool true; JBool false; JUndefined] Sample.live_ok)
    = Some true.
Proof.
  split; [reflexivity|].
  destruct (release_at_most_once Sample.live_ok 0%nat (Sample.handle Sample.ok_client false)
              [JBool true; JBool false; JUndefined] eq_refl) as [evs [H1 [H2 [_ H4]]]].
  destruct (H4 eq_refl (JBool true) [JBool false; JUndefined] eq_refl) as [H5 [H6 _]].
  exists evs. split; [exact H1|]. split; [exact H2|]. split; [exact H5 | exact H6].
Defined.

Lemma query_two_args_is_three_args_witness :
  heap Sample.live_ok !! 0%nat = Some (Sample.handle Sample.ok_client false) /\
  exists tl,
    trace (snd (DBConnection.query 0%nat (Val (JStr "SELECT 1 AS foo")) (Val (JFun 5))
                  (Val JUndefined) Sample.live_ok))
    = trace Sample.live_ok ++ ClientQuery 1 (JStr "SELECT 1 AS foo") (JArr []) :: tl.
Proof.
  split; [reflexivity|].
  exact (proj2 (query_two_args_is_three_args 0%nat (JStr "SELECT 1 AS foo") 5 Sample.live_ok)
           (Sample.handle Sample.ok_client false) eq_refl).
Defined.

(** ** What every call on a handle keeps *)

(** Calling a value of the caller: the heap and the pools stay, and the
    trace grows by that call at most. *)
Lemma invoke_val_effect (cb : jsval) (args : list jsval) (w : World) :
  exists tl, trace (snd (invoke (Val cb) args w)) = trace w ++ tl /\
             release_events tl = [] /\
             heap (snd (invoke (Val cb) args w)) = heap w /\
             pg (snd (invoke (Val cb) args w)) = pg w.
Proof.
  destruct cb; cbn;
    try (exists []; rewrite app_nil_r; repeat split; reflexivity).
  eexists [_]. repeat split; reflexivity.
Qed.

(** [release] on a handle of the heap: the heap changes at that address
    only, and only by the flag; one release callback for a live handle, none
    for a released one. *)
Lemma release_effect (w : World) (l : loc) (o : DBConnectionObj) (d : jsval) :
  heap w !! l = Some o ->
  let w' := snd (DBConnection.release l d w) in
  exists tl,
    trace w' = trace w ++ tl /\
    heap w' = (if _released o then heap w else <[l := set_released true o]> (heap w)) /\
    release_events tl = (if _released o then [] else [ReleaseCb (rf_id (releaseFn o)) d]).
Proof.
  intros Hl. cbv zeta. destruct (_released o) eqn:Hr.
  - rewrite (release_released w l o d Hl Hr). exists []. cbn.
    rewrite app_nil_r. repeat split; reflexivity.
  - rewrite (release_live w l o d Hl Hr).
    destruct (pool_lookup (released_world l o d w)) as [u|e]; cbn [snd].
    + exists [ReleaseCb (rf_id (releaseFn o)) d;
              ConsoleLog "db.txn_conn_pool.release.count" (JNum (Int u))].
      cbn. rewrite <- app_assoc. repeat split; reflexivity.
    + exists [ReleaseCb (rf_id (releaseFn o)) d]. repeat split; reflexivity.
Qed.

(** [query] on a handle of the heap, with the arguments as normalised at its
    head. *)
Lemma query_normalised (w : World) (l : loc) (o : DBConnectionObj) (sql values cb : jsarg) :
  heap w !! l = Some o ->
  DBConnection.query l sql values cb w =
    let vc := if arg_nullish cb then (Val (JArr []), values) else (values, cb) in
    let w1 := set_trace
                (fun t => t ++ [ClientQuery (cl_id (client o)) (arg_value sql)
                                  (arg_value (fst vc))]) w in
    let er := cl_query (client o) (arg_value sql) (arg_value (fst vc)) in
    if truthy (fst er)
    then (DBConnection.release l (JBool true) ;; invoke (snd vc) [fst er]) w1
    else invoke (snd vc) [JNull; snd er] w1.
Proof.
  intros Hl. unfold DBConnection.query.
  destruct (arg_nullish cb); cbv zeta; cbn [fst snd];
    unfold bind at 1; rewrite (load_Some _ _ _ Hl);
    unfold bind at 1; unfold emit at 1;
    match goal with
    | |- context [cl_query ?c ?a ?b] => destruct (cl_query c a b) as [err res]
    end;
    cbn [fst snd]; destruct (truthy err); reflexivity.
Qed.

Lemma release_events_app (a b : list Event) :
  release_events (a ++ b) = release_events a ++ release_events b.
Proof. unfold release_events. apply List.filter_app. Qed.

Lemma quiet_ret : quiet (ret tt).
Proof. intros w. exists []. cbn. rewrite app_nil_r. repeat split; reflexivity. Qed.

Lemma quiet_emit (e : Event) : is_release e = false -> quiet (emit e).
Proof.
  intros He w. exists [e]. cbn. rewrite He. repeat split; reflexivity.
Qed.

Lemma quiet_invoke (cb : jsval) (args : list jsval) : quiet (invoke (Val cb) args).
Proof.
  intros w. destruct (invoke_val_effect cb args w) as [tl [H1 [H2 [H3 _]]]].
  exists tl. repeat split; assumption.
Qed.

Lemma quiet_maybe_call (cb : jsval) (args : list jsval) : quiet (maybe_call (Val cb) args).
Proof.
  unfold maybe_call. destruct (arg_truthy (Val cb)); [apply quiet_invoke | apply quiet_ret].
Qed.

Lemma quiet_bind (m1 m2 : M unit) : quiet m1 -> quiet m2 -> quiet (m1 ;; m2).
Proof.
  intros H1 H2 w. unfold bind.
  destruct (H1 w) as [tl1 [Ht1 [Hn1 Hh1]]].
  destruct (m1 w) as [[[]|e] w1]; cbn [snd] in *.
  - destruct (H2 w1) as [tl2 [Ht2 [Hn2 Hh2]]].
    exists (tl1 ++ tl2). rewrite Ht2, Ht1, Hh2, Hh1, release_events_app, Hn1, Hn2, app_assoc.
    repeat split; reflexivity.
  - exists tl1. repeat split; assumption.
Qed.

Lemma steps_release (P : jsval -> Prop) (l : loc) (d : jsval) :
  P d -> steps P l (DBConnection.release l d).
Proof.
  intros Hd w o Hl. destruct (release_effect w l o d Hl) as [tl [Ht [Hh Hn]]].
  exists tl. split; [exact Ht|].
  destruct (_released o).
  - left. split; assumption.
  - right. split; [reflexivity|]. split; [exact Hh|]. exists d. split; assumption.
Qed.

Lemma steps_quiet (P : jsval -> Prop) (l : loc) (m : M unit) : quiet m -> steps P l m.
Proof.
  intros Hq w o _. destruct (Hq w) as [tl [Ht [Hn Hh]]].
  exists tl. split; [exact Ht|]. left. split; assumption.
Qed.

Lemma steps_quiet_then (P : jsval -> Prop) (l : loc) (m1 m2 : M unit) :
  quiet m1 -> steps P l m2 -> steps P l (m1 ;; m2).
Proof.
  intros H1 H2 w o Hl. unfold bind.
  destruct (H1 w) as [tl1 [Ht1 [Hn1 Hh1]]].
  destruct (m1 w) as [[[]|e] w1]; cbn [snd] in *.
  - assert (Hl1 : heap w1 !! l = Some o) by (rewrite Hh1; exact Hl).
    destruct (H2 w1 o Hl1) as [tl2 [Ht2 Hc]].
    exists (tl1 ++ tl2). rewrite Ht2, Ht1, app_assoc. split; [reflexivity|].
    rewrite release_events_app, Hn1. cbn [app].
    destruct Hc as [[Hh2 Hn2]|[Hr [Hh2 Hn2]]].
    + left. rewrite Hh2, Hh1. split; [reflexivity | exact Hn2].
    + right. rewrite Hh2, Hh1. split; [exact Hr|]. split; [reflexivity | exact Hn2].
  - exists tl1. split; [exact Ht1|]. left. split; assumption.
Qed.

Lemma steps_then_quiet (P : jsval -> Prop) (l : loc) (m1 m2 : M unit) :
  steps P l m1 -> quiet m2 -> steps P l (m1 ;; m2).
Proof.
  intros H1 H2 w o Hl. unfold bind.
  destruct (H1 w o Hl) as [tl1 [Ht1 Hc]].
  destruct (m1 w) as [[[]|e] w1]; cbn [snd] in *.
  - destruct (H2 w1) as [tl2 [Ht2 [Hn2 Hh2]]].
    exists (tl1 ++ tl2). rewrite Ht2, Ht1, app_assoc. split; [reflexivity|].
    rewrite release_events_app, Hn2, app_nil_r, Hh2. exact Hc.
  - exists tl1. split; [exact Ht1 | exact Hc].
Qed.

Lemma steps_query (P : jsval -> Prop) (l : loc) (sql values cb : jsval) :
  P (JBool true) -> steps P l (DBConnection.query l (Val sql) (Val values) (Val cb)).
Proof.
  intros HP w o Hl. rewrite (query_normalised w l o _ _ _ Hl). cbv zeta.
  assert (Hvc : exists v c,
             (if arg_nullish (Val cb) then (Val (JArr []), Val values) else (Val values, Val cb))
             = (Val v, Val c)).
  { destruct (arg_nullish (Val cb)); eexists; eexists; reflexivity. }
  destruct Hvc as [v [c ->]]. cbn [fst snd arg_value].
  set (q := ClientQuery (cl_id (client o)) sql v).
  set (er := cl_query (client o) sql v).
  destruct (truthy (fst er)).
  - change (handle_step P l o w
              (snd ((emit q ;; DBConnection.release l (JBool true) ;;
                     invoke (Val c) [fst er]) w))).
    apply steps_quiet_then; [apply quiet_emit; reflexivity | | exact Hl].
    apply steps_then_quiet; [apply steps_release; exact HP | apply quiet_invoke].
  - change (handle_step P l o w (snd ((emit q ;; invoke (Val c) [JNull; snd er]) w))).
    apply steps_quiet_then; [apply quiet_emit; reflexivity | | exact Hl].
    apply steps_quiet, quiet_invoke.
Qed.

Lemma steps_txn_query (P : jsval -> Prop) (l : loc) (arguments : list jsval) :
  P (JBool true) -> steps P l (DBTransaction.query {| conn := l |} (map Val arguments)).
Proof.
  intros HP. unfold DBTransaction.query. cbn [conn].
  assert (H : forall i, exists v, nth i (map Val arguments) (Val JUndefined) = Val v).
  { intros i. exists (nth i arguments JUndefined).
    change (Val JUndefined) with (Val JUndefined) at 1.
    rewrite (map_nth Val arguments JUndefined i). reflexivity. }
  destruct (H 0%nat) as [a ->], (H 1%nat) as [b ->], (H 2%nat) as [c ->].
  apply steps_query. exact HP.
Qed.

Lemma steps_terminal (P : jsval -> Prop) (k : terminal) (l : loc) (cb : jsval) :
  P (JBool true) -> steps P l (run_terminal k {| conn := l |} (Val cb)).
Proof.
  intros HP w o Hl. rewrite (terminal_body k w {| conn := l |} o (Val cb) Hl). cbv zeta.
  cbn [conn].
  set (q := ClientQuery (cl_id (client o)) (terminal_sql k) (JArr [])).
  set (er := cl_query (client o) (terminal_sql k) (JArr [])).
  destruct (truthy (fst er)).
  - change (handle_step P l o w
              (snd ((emit q ;; DBConnection.release l (JBool true) ;;
                     emit (failure_metric k) ;; maybe_call (Val cb) [fst er]) w))).
    apply steps_quiet_then; [apply quiet_emit; reflexivity | | exact Hl].
    apply steps_then_quiet; [apply steps_release; exact HP|].
    apply quiet_bind; [apply quiet_emit; destruct k; reflexivity | apply quiet_maybe_call].
  - change (handle_step P l o w
              (snd ((emit q ;; emit (success_metric k) ;;
                     DBConnection.release l (JBool true) ;; maybe_call (Val cb) [JNull]) w))).
    apply steps_quiet_then; [apply quiet_emit; reflexivity | | exact Hl].
    apply steps_quiet_then; [apply quiet_emit; destruct k; reflexivity|].
    apply steps_then_quiet; [apply steps_release; exact HP | apply quiet_maybe_call].
Qed.

Lemma steps_run_op (P : jsval -> Prop) (l : loc) (x : op) :
  P (JBool true) -> Forall P (disposes_of [x]) -> steps P l (run_op l x).
Proof.
  intros HP Hx. destruct x; cbn [run_op].
  - apply steps_release. inversion Hx; assumption.
  - apply steps_query, HP.
  - apply steps_txn_query, HP.
  - apply (steps_terminal P Commit), HP.
  - apply (steps_terminal P Rollback), HP.
Qed.

(** A released handle stays as it is under a step. *)
Lemma handle_step_released (P : jsval -> Prop) (l : loc) (o : DBConnectionObj) (w w' : World) :
  _released o = true -> handle_step P l o w w' ->
  exists tl, trace w' = trace w ++ tl /\ heap w' = heap w /\ release_events tl = [].
Proof.
  intros Hr [tl [Ht [[Hh Hn]|[Hf _]]]]; [|congruence].
  exists tl. repeat split; assumption.
Qed.

Lemma disposes_of_cons (x : op) (ops : list op) :
  disposes_of (x :: ops) = disposes_of [x] ++ disposes_of ops.
Proof. destruct x; reflexivity. Qed.

Lemma run_ops_step (P : jsval -> Prop) (l : loc) (ops : list op) (w : World)
      (o : DBConnectionObj) :
  P (JBool true) -> Forall P (disposes_of ops) ->
  heap w !! l = Some o -> handle_step P l o w (run_ops l ops w).
Proof.
  intros HP. revert w o. induction ops as [|x ops IH]; intros w o Hops Hl.
  - exists []. cbn. rewrite app_nil_r. split; [reflexivity|]. left. split; reflexivity.
  - cbn [run_ops]. rewrite disposes_of_cons in Hops.
    apply Forall_app in Hops. destruct Hops as [Hx Hops].
    destruct (steps_run_op P l x HP Hx w o Hl) as [tl1 [Ht1 Hc]].
    set (w1 := snd (run_op l x w)) in *.
    destruct Hc as [[Hh1 Hn1]|[Hr [Hh1 [d [Hd Hn1]]]]].
    + assert (Hl1 : heap w1 !! l = Some o) by (rewrite Hh1; exact Hl).
      destruct (IH w1 o Hops Hl1) as [tl2 [Ht2 Hc2]].
      exists (tl1 ++ tl2). rewrite Ht2, Ht1, app_assoc. split; [reflexivity|].
      rewrite release_events_app, Hn1. cbn [app]. rewrite Hh1 in Hc2. exact Hc2.
    + assert (Hl1 : heap w1 !! l = Some (set_released true o)).
      { rewrite Hh1. apply list_lookup_insert_eq. apply lookup_lt_Some in Hl. exact Hl. }
      destruct (handle_step_released P l (set_released true o) w1 _ eq_refl (IH w1 _ Hops Hl1))
        as [tl2 [Ht2 [Hh2 Hn2]]].
      exists (tl1 ++ tl2). rewrite Ht2, Ht1, app_assoc. split; [reflexivity|].
      right. split; [exact Hr|]. rewrite Hh2, Hh1. split; [reflexivity|].
      exists d. split; [exact Hd|]. rewrite release_events_app, Hn1, Hn2. reflexivity.
Qed.

(** X1. Whatever calls a caller makes on a handle and on the transaction
    that owns it (release, query, commit, rollback, in any number and order,
    with any arguments, whatever the client answers and whether or not a
    call throws), the release callback of the handle is called at most once,
    and not at all if the handle was released before.  The dispose argument
    of that call is [true] unless it comes from a [release] call of the
    caller. *)
Theorem calls_release_callback_once (l : loc) (ops : list op) (w : World) (o : DBConnectionObj) :
  heap w !! l = Some o ->
  let w' := run_ops l ops w in
  exists tl,
    trace w' = trace w ++ tl /\
    (length (release_events tl) <= 1)%nat /\
    (forall e, In e (release_events tl) ->
       exists d, e = ReleaseCb (rf_id (releaseFn o)) d /\
                 (d = JBool true \/ In d (disposes_of ops))) /\
    (_released o = true -> release_events tl = []).
Proof.
  intros Hl. cbv zeta.
  set (P := fun d => d = JBool true \/ In d (disposes_of ops)).
  assert (HP : P (JBool true)) by (left; reflexivity).
  assert (Hall : Forall P (disposes_of ops)).
  { apply List.Forall_forall. intros d Hd. right. exact Hd. }
  destruct (run_ops_step P l ops w o HP Hall Hl) as [tl [Ht Hc]].
  exists tl. split; [exact Ht|].
  destruct Hc as [[_ Hn]|[Hr [_ [d [Hd Hn]]]]]; rewrite Hn.
  - split; [cbn; lia|]. split; [intros e []|]. reflexivity.
  - split; [cbn; lia|]. split.
    + intros e [<-|[]]. exists d. split; [reflexivity | exact Hd].
    + congruence.
Qed.

Lemma calls_release_callback_once_witness :
  heap Sample.live_failing !! 0%nat = Some (Sample.handle Sample.failing_client false) /\
  exists tl,
    trace (run_ops 0%nat Sample.calls Sample.live_failing) = trace Sample.live_failing ++ tl /\
    (length (release_events tl) <= 1)%nat /\
    (forall e, In e (release_events tl) ->
       exists d, e = ReleaseCb 7 d /\ (d = JBool true \/ In d (disposes_of Sample.calls))) /\
    (_released (Sample.handle Sample.failing_client false) = true -> release_events tl = []).
Proof.
  split; [reflexivity|].
  exact (calls_release_callback_once 0%nat Sample.calls Sample.live_failing
           (Sample.handle Sample.failing_client false) eq_refl).
Defined.

(** X2. The same calls leave every other handle of the heap untouched, and
    change the handle they are made on by its released flag only: it keeps
    its client and its release callback, and a flag that is set stays set. *)
Theorem calls_touch_only_the_flag (l : loc) (ops : list op) (w : World) (o : DBConnectionObj) :
  heap w !! l = Some o ->
  let w' := run_ops l ops w in
  length (heap w') = length (heap w) /\
  (forall l', l' <> l -> heap w' !! l' = heap w !! l') /\
  exists o',
    heap w' !! l = Some o' /\
    client o' = client o /\ releaseFn o' = releaseFn o /\
    (_released o = true -> _released o' = true).
Proof.
  intros Hl. cbv zeta.
  destruct (run_ops_step (fun _ => True) l ops w o I) as [tl [_ Hc]];
    [apply List.Forall_forall; intros; exact I | exact Hl |].
  destruct Hc as [[Hh _]|[Hr [Hh _]]]; rewrite Hh.
  - split; [reflexivity|]. split; [reflexivity|].
    exists o. repeat split; [exact Hl | tauto].
  - split; [apply length_insert|]. split.
    + intros l' Hne. apply list_lookup_insert_ne. congruence.
    + exists (set_released true o). split.
      * apply list_lookup_insert_eq. apply lookup_lt_Some in Hl. exact Hl.
      * repeat split.
Qed.

Lemma calls_touch_only_the_flag_witness :
  heap Sample.two_handles !! 0%nat = Some (Sample.handle Sample.failing_client false) /\
  heap (run_ops 0%nat Sample.calls Sample.two_handles) !! 1%nat
  = Some (Sample.handle Sample.ok_client false) /\
  exists o',
    heap (run_ops 0%nat Sample.calls Sample.two_handles) !! 0%nat = Some o' /\
    client o' = Sample.failing_client /\ releaseFn o' = Sample.release0.
Proof.
  split; [reflexivity|].
  destruct (calls_touch_only_the_flag 0%nat Sample.calls Sample.two_handles
              (Sample.handle Sample.failing_client false) eq_refl) as [_ [Hf [o' [H1 [H2 [H3 _]]]]]].
  split.
  - etransitivity; [apply (Hf 1%nat); discriminate | reflexivity].
  - exists o'. split; [exact H1|]. split; [exact H2 | exact H3].
Defined.

(** ** More on get and begin *)

Lemma user_calls_app (a b : list Event) :
  user_calls (a ++ b) = user_calls a ++ user_calls b.
Proof. unfold user_calls. apply List.filter_app. Qed.

Lemma after_connect_poolSize (config : jsval) (w : World) :
  defaults_poolSize (pg (after_connect config w))
  = JNum (effective_size (classify_override (env_PGBOUNCER_MAX_CLIENT_CONN w))).
Proof.
  pose proof (getPoolSize_classified (env_PGBOUNCER_MAX_CLIENT_CONN w) w) as H.
  unfold DBConnection._getPoolSize in H. cbn [fst set_env env_PGBOUNCER_MAX_CLIENT_CONN] in H.
  injection H as H.
  unfold after_connect, DBConnection._setPoolSize, DBConnection._getPoolSize,
    DBConnection.pg_connect, bind, emit. cbn.
  destruct (connect (pg w) config (pools_all (pg w))). cbn. rewrite H. reflexivity.
Qed.

(** What [get] adds to the trace before it calls back on a checkout without
    error. *)
Lemma got_world_trace (config : jsval) (w : World) :
  trace (got_world config w)
  = trace w
    ++ [PgConnect config]
    ++ match pool_lookup (after_connect config w) with
       | Normal u => [ConsoleLog "db.txn_conn_pool.count" (JNum (Int u))]
       | Throw _ => []
       end
    ++ [ConsoleLog "db.txn_conn_pool.total"
          (JNum (effective_size (classify_override (env_PGBOUNCER_MAX_CLIENT_CONN w))));
        ConsoleLog "db.txn_conn_pool.get" (JNum (Int 1));
        ConsoleLog "db.txn_conn_pool.get.latency" (JNum (Int (co_elapsed (connect_outcome config w))))].
Proof.
  unfold got_world. cbn [trace set_heap set_trace]. rewrite after_connect_poolSize.
  destruct (pool_lookup (after_connect config w)); cbn [trace set_trace];
    rewrite after_connect_trace, <- !app_assoc; reflexivity.
Qed.

Lemma got_world_heap (config : jsval) (w : World) :
  heap (got_world config w) = heap w ++ [new_handle (connect_outcome config w)].
Proof.
  unfold got_world. cbn [heap set_heap set_trace].
  destruct (pool_lookup (after_connect config w)); cbn [heap set_trace];
    rewrite after_connect_heap; reflexivity.
Qed.

(** X3. A checkout without error: [get] returns normally; it has made the
    checkout, logged the pool utilization if the lookup found a pool (and
    nothing in its place if not), then the pool size it had set, the
    counter, and as latency the time the checkout took; it has put one new,
    unreleased handle holding the adapter's client and release callback at
    the end of the heap, and last called the callback with the adapter's
    error value and that handle. *)
Theorem get_checkout_success (config : jsval) (f : nat) (w : World) :
  is_nullish (co_err (connect_outcome config w)) = true ->
  let oc := connect_outcome config w in
  let r := DBConnection.get config (Val (JFun f)) w in
  fst r = Normal tt /\
  trace (snd r)
  = trace w
    ++ [PgConnect config]
    ++ match pool_lookup (after_connect config w) with
       | Normal u => [ConsoleLog "db.txn_conn_pool.count" (JNum (Int u))]
       | Throw _ => []
       end
    ++ [ConsoleLog "db.txn_conn_pool.total"
          (JNum (effective_size (classify_override (env_PGBOUNCER_MAX_CLIENT_CONN w))));
        ConsoleLog "db.txn_conn_pool.get" (JNum (Int 1));
        ConsoleLog "db.txn_conn_pool.get.latency" (JNum (Int (co_elapsed oc)));
        UserCb f [co_err oc; JConn (length (heap w))]] /\
  heap (snd r)
  = heap w ++ [{| client := co_client oc; releaseFn := co_release oc; _released := false |}].
Proof.
  intros He. cbv zeta. rewrite (get_checked_out config _ w He).
  cbn [invoke emit fst snd trace heap set_trace].
  split; [reflexivity|]. split.
  - rewrite got_world_trace, <- !app_assoc. reflexivity.
  - apply got_world_heap.
Qed.

Lemma get_checkout_success_witness :
  is_nullish (co_err (connect_outcome (JObj 9) Sample.fresh_ok)) = true /\
  trace (snd (DBConnection.get (JObj 9) (Val (JFun 5)) Sample.fresh_ok))
  = [PgConnect (JObj 9);
     ConsoleLog "db.txn_conn_pool.count" (JNum (Int 1));
     ConsoleLog "db.txn_conn_pool.total" (JNum (Int 100));
     ConsoleLog "db.txn_conn_pool.get" (JNum (Int 1));
     ConsoleLog "db.txn_conn_pool.get.latency" (JNum (Int 3));
     UserCb 5 [JNull; JConn 0%nat]] /\
  heap (snd (DBConnection.get (JObj 9) (Val (JFun 5)) Sample.fresh_ok))
  = [Sample.handle Sample.ok_client false].
Proof.
  split; [reflexivity|].
  exact (proj2 (get_checkout_success (JObj 9) 5 Sample.fresh_ok eq_refl)).
Defined.

(** X4. In every world, whatever the adapter answers and whether or not the
    utilization lookup finds a pool, [get] with a function as callback
    returns normally and calls the callback exactly once, as its last act;
    it calls no release callback, and the handles already on the heap stay
    as they are, at most one new unreleased handle being added after them. *)
Theorem get_calls_back_once (config : jsval) (f : nat) (w : World) :
  let r := DBConnection.get config (Val (JFun f)) w in
  fst r = Normal tt /\
  (exists tl args,
     trace (snd r) = trace w ++ tl ++ [UserCb f args] /\
     user_calls tl = [] /\ release_events tl = []) /\
  (heap (snd r) = heap w \/
   exists o, heap (snd r) = heap w ++ [o] /\ _released o = false).
Proof.
  cbv zeta. destruct (is_nullish (co_err (connect_outcome config w))) eqn:He.
  - rewrite (get_checked_out config _ w He).
    cbn [invoke emit fst snd trace heap set_trace].
    split; [reflexivity|]. split.
    + rewrite got_world_trace.
      set (total := ConsoleLog "db.txn_conn_pool.total" _).
      set (latency := ConsoleLog "db.txn_conn_pool.get.latency" _).
      destruct (pool_lookup (after_connect config w)) as [u|e].
      * exists [PgConnect config; ConsoleLog "db.txn_conn_pool.count" (JNum (Int u)); total;
                ConsoleLog "db.txn_conn_pool.get" (JNum (Int 1)); latency],
               [co_err (connect_outcome config w); JConn (length (heap w))].
        cbn [app]. rewrite <- !app_assoc. repeat split.
      * exists [PgConnect config; total;
                ConsoleLog "db.txn_conn_pool.get" (JNum (Int 1)); latency],
               [co_err (connect_outcome config w); JConn (length (heap w))].
        cbn [app]. rewrite <- !app_assoc. repeat split.
    + right. eexists. split; [apply got_world_heap | reflexivity].
  - rewrite (get_refused config _ w He).
    cbn [invoke emit fst snd trace heap set_trace].
    split; [reflexivity|]. split.
    + rewrite after_connect_trace. exists [PgConnect config], [co_err (connect_outcome config w)].
      split; [rewrite <- app_assoc; reflexivity|]. split; reflexivity.
    + left. apply after_connect_heap.
Qed.

(** X5. A checkout error that is truthy: [begin] calls the callback with the
    error alone and does nothing else; no BEGIN reaches any client, no
    metric is logged, no handle is made. *)
Theorem begin_checkout_error (config : jsval) (f : nat) (w : World) :
  is_nullish (co_err (connect_outcome config w)) = false ->
  truthy (co_err (connect_outcome config w)) = true ->
  let r := DBConnection.begin config (Val (JFun f)) w in
  fst r = Normal tt /\
  trace (snd r) = trace w ++ [PgConnect config; UserCb f [co_err (connect_outcome config w)]] /\
  heap (snd r) = heap w.
Proof.
  intros He Ht. cbv zeta. unfold DBConnection.begin.
  rewrite (get_refused config _ w He).
  cbn [invoke param nth]. rewrite Ht.
  cbn [emit fst snd trace heap set_trace].
  rewrite after_connect_trace, after_connect_heap, <- app_assoc. repeat split.
Qed.

Lemma begin_checkout_error_witness :
  is_nullish (co_err (connect_outcome (JObj 9) Sample.fresh_refused)) = false /\
  truthy (co_err (connect_outcome (JObj 9) Sample.fresh_refused)) = true /\
  fst (DBConnection.begin (JObj 9) (Val (JFun 5)) Sample.fresh_refused) = Normal tt /\
  trace (snd (DBConnection.begin (JObj 9) (Val (JFun 5)) Sample.fresh_refused))
  = trace Sample.fresh_refused
    ++ [PgConnect (JObj 9); UserCb 5 [co_err (connect_outcome (JObj 9) Sample.fresh_refused)]] /\
  heap (snd (DBConnection.begin (JObj 9) (Val (JFun 5)) Sample.fresh_refused))
  = heap Sample.fresh_refused.
Proof.
  split; [reflexivity|]. split; [reflexivity|].
  exact (begin_checkout_error (JObj 9) 5 Sample.fresh_refused eq_refl eq_refl).
Defined.

(** X6. [get] tells an error from none by [null]/[undefined], [begin] by
    truthiness.  An adapter error that is neither null nor undefined but
    falsy ([false], [0], the empty string) passes [get] as an error and
    [begin] as none: [begin] then reads [query] off the missing handle and
    throws a TypeError; the callback is never called. *)
Theorem begin_falsy_error_throws (config : jsval) (cb : jsarg) (w : World) :
  is_nullish (co_err (connect_outcome config w)) = false ->
  truthy (co_err (connect_outcome config w)) = false ->
  let r := DBConnection.begin config cb w in
  fst r = Throw (TypeError "conn.query is not a function") /\
  trace (snd r) = trace w ++ [PgConnect config] /\
  heap (snd r) = heap w.
Proof.
  intros He Ht. cbv zeta. unfold DBConnection.begin.
  rewrite (get_refused config _ w He).
  cbn [invoke param nth]. rewrite Ht.
  cbn [throw fst snd].
  rewrite after_connect_trace, after_connect_heap. repeat split.
Qed.

Lemma begin_falsy_error_throws_witness :
  is_nullish (co_err (connect_outcome (JObj 9) Sample.fresh_false)) = false /\
  truthy (co_err (connect_outcome (JObj 9) Sample.fresh_false)) = false /\
  fst (DBConnection.begin (JObj 9) (Val (JFun 5)) Sample.fresh_false)
  = Throw (TypeError "conn.query is not a function") /\
  trace (snd (DBConnection.begin (JObj 9) (Val (JFun 5)) Sample.fresh_false))
  = trace Sample.fresh_false ++ [PgConnect (JObj 9)] /\
  heap (snd (DBConnection.begin (JObj 9) (Val (JFun 5)) Sample.fresh_false))
  = heap Sample.fresh_false.
Proof.
  split; [reflexivity|]. split; [reflexivity|].
  exact (begin_falsy_error_throws (JObj 9) (Val (JFun 5)) Sample.fresh_false eq_refl eq_refl).
Defined.

Lemma begin_success_witness :
  is_nullish (co_err (connect_outcome (JObj 9) Sample.fresh_ok)) = true /\
  truthy (fst (cl_query (client (new_handle (connect_outcome (JObj 9) Sample.fresh_ok)))
                 (JStr "BEGIN") (JArr []))) = false /\
  fst (DBConnection.begin (JObj 9) (Val (JFun 5)) Sample.fresh_ok) = Normal tt /\
  trace (snd (DBConnection.begin (JObj 9) (Val (JFun 5)) Sample.fresh_ok))
  = trace (got_world (JObj 9) Sample.fresh_ok)
    ++ [ClientQuery 1 (JStr "BEGIN") (JArr []);
        ConsoleLog "db.txn.begin.success" (JNum (Int 1));
        UserCb 5 [JNull; JTxn {| conn := 0%nat |}]] /\
  released_at 0%nat (snd (DBConnection.begin (JObj 9) (Val (JFun 5)) Sample.fresh_ok))
  = Some false.
Proof.
  split; [reflexivity|]. split; [reflexivity|].
  exact (begin_success (JObj 9) 5 Sample.fresh_ok eq_refl eq_refl).
Defined.

(** X8. When BEGIN fails after a checkout without error, the new handle is
    released whatever happens next: right after the client's answer its
    release callback is called, with dispose=true, and its flag is set; no
    other release callback is called.  After that either nothing follows
    (the lookup in [release] threw) or the release metric, the begin-failure
    metric and the callback with the error alone; the callback never gets a
    transaction. *)
Theorem begin_failure_always_releases (config : jsval) (f : nat) (w : World) :
  is_nullish (co_err (connect_outcome config w)) = true ->
  let c := length (heap w) in
  let o := new_handle (connect_outcome config w) in
  let q := ClientQuery (cl_id (client o)) (JStr "BEGIN") (JArr []) in
  let er := cl_query (client o) (JStr "BEGIN") (JArr []) in
  truthy (fst er) = true ->
  let r := DBConnection.begin config (Val (JFun f)) w in
  exists tl,
    trace (snd r) = trace (got_world config w)
                    ++ [q; ReleaseCb (rf_id (releaseFn o)) (JBool true)] ++ tl /\
    release_events tl = [] /\
    released_at c (snd r) = Some true /\
    (tl = [] \/
     exists u, tl = [ConsoleLog "db.txn_conn_pool.release.count" (JNum (Int u));
                     ConsoleLog "db.txn.begin.error" (JNum (Int 1));
                     UserCb f [fst er]]).
Proof.
  intros He c o q er Ht. cbv zeta. rewrite (begin_body config _ w He). cbv zeta.
  fold c o q er. rewrite Ht. unfold bind.
  set (w1 := set_trace (fun t => t ++ [q]) (got_world config w)) in *.
  assert (Hl : heap w1 !! c = Some o) by exact (got_world_handle config w).
  rewrite (release_live w1 c o _ Hl eq_refl).
  pose proof (released_world_flag c o (JBool true) w1 Hl) as Hf.
  destruct (pool_lookup (released_world c o (JBool true) w1)) as [u|e].
  - eexists [_; _; _]. cbn. split; [rewrite <- !app_assoc; reflexivity|].
    split; [reflexivity|]. split; [exact Hf|]. right. exists u. reflexivity.
  - exists []. cbn. split; [rewrite <- !app_assoc; reflexivity|].
    split; [reflexivity|]. split; [exact Hf|]. left. reflexivity.
Qed.

Lemma begin_failure_always_releases_witness :
  is_nullish (co_err (connect_outcome (JObj 9) Sample.fresh_unlisted_failing)) = true /\
  truthy (fst (cl_query Sample.failing_client (JStr "BEGIN") (JArr []))) = true /\
  exists tl,
    trace (snd (DBConnection.begin (JObj 9) (Val (JFun 5)) Sample.fresh_unlisted_failing))
    = trace (got_world (JObj 9) Sample.fresh_unlisted_failing)
      ++ [ClientQuery 2 (JStr "BEGIN") (JArr []); ReleaseCb 7 (JBool true)] ++ tl /\
    release_events tl = [] /\
    released_at 0%nat (snd (DBConnection.begin (JObj 9) (Val (JFun 5)) Sample.fresh_unlisted_failing))
    = Some true /\
    (tl = [] \/
     exists u, tl = [ConsoleLog "db.txn_conn_pool.release.count" (JNum (Int u));
                     ConsoleLog "db.txn.begin.error" (JNum (Int 1));
                     UserCb 5 [Sample.dbErr]]).
Proof.
  split; [reflexivity|]. split; [reflexivity|].
  exact (begin_failure_always_releases (JObj 9) 5 Sample.fresh_unlisted_failing eq_refl eq_refl).
Defined.

(** ** More on query *)

(** X9. The release on error does not depend on anything but the client's
    answer: on a live handle, with any values and any callback argument
    (missing or not callable too) and in any state of the pools, a query the
    client fails has the release callback called with dispose=true right
    after the client call, and the flag set; no other release callback is
    called. *)
Theorem query_error_always_releases (w : World) (l : loc) (o : DBConnectionObj)
      (sql values cb : jsval) :
  heap w !! l = Some o -> _released o = false ->
  let v := if is_nullish cb then JArr [] else values in
  truthy (fst (cl_query (client o) sql v)) = true ->
  let r := DBConnection.query l (Val sql) (Val values) (Val cb) w in
  exists tl,
    trace (snd r) = trace w ++ [ClientQuery (cl_id (client o)) sql v;
                                ReleaseCb (rf_id (releaseFn o)) (JBool true)] ++ tl /\
    release_events tl = [] /\
    released_at l (snd r) = Some true.
Proof.
  intros Hl Hr v He. cbv zeta.
  rewrite (query_normalised w l o _ _ _ Hl). cbv zeta.
  assert (Hvc : exists c,
             (if arg_nullish (Val cb) then (Val (JArr []), Val values) else (Val values, Val cb))
             = (Val v, Val c)).
  { unfold v. cbn [arg_nullish]. destruct (is_nullish cb); eexists; reflexivity. }
  destruct Hvc as [c ->]. cbn [fst snd arg_value]. rewrite He.
  set (w1 := set_trace _ w).
  assert (Hl1 : heap w1 !! l = Some o) by exact Hl.
  unfold bind. rewrite (release_live w1 l o _ Hl1 Hr).
  pose proof (released_world_flag l o (JBool true) w1 Hl1) as Hf.
  destruct (pool_lookup (released_world l o (JBool true) w1)) as [u|e].
  - set (w3 := set_trace _ (released_world l o (JBool true) w1)).
    destruct (invoke_val_effect c [fst (cl_query (client o) sql v)] w3) as [tl [Ht [Hn [Hh _]]]].
    exists (ConsoleLog "db.txn_conn_pool.release.count" (JNum (Int u)) :: tl).
    rewrite Ht. split; [|split].
    + unfold w3, w1. cbn [trace set_trace released_world set_heap set_pg].
      rewrite <- !app_assoc. reflexivity.
    + unfold release_events in *. cbn. exact Hn.
    + unfold released_at in *. rewrite Hh. exact Hf.
  - exists []. cbn [snd]. rewrite released_world_trace. unfold w1. cbn [trace set_trace].
    split; [rewrite <- !app_assoc; reflexivity|]. split; [reflexivity | exact Hf].
Qed.

Lemma query_error_always_releases_witness :
  heap Sample.nopool_failing !! 0%nat = Some (Sample.handle Sample.failing_client false) /\
  truthy (fst (cl_query Sample.failing_client (JStr "SELECT 1 AS foo") (JArr []))) = true /\
  exists tl,
    trace (snd (DBConnection.query 0%nat (Val (JStr "SELECT 1 AS foo")) (Val JUndefined)
                  (Val JUndefined) Sample.nopool_failing))
    = trace Sample.nopool_failing
      ++ [ClientQuery 2 (JStr "SELECT 1 AS foo") (JArr []); ReleaseCb 7 (JBool true)] ++ tl /\
    release_events tl = [] /\
    released_at 0%nat (snd (DBConnection.query 0%nat (Val (JStr "SELECT 1 AS foo")) (Val JUndefined)
                              (Val JUndefined) Sample.nopool_failing)) = Some true.
Proof.
  split; [reflexivity|]. split; [reflexivity|].
  exact (query_error_always_releases Sample.nopool_failing 0%nat
           (Sample.handle Sample.failing_client false)
           (JStr "SELECT 1 AS foo") JUndefined JUndefined eq_refl eq_refl eq_refl).
Defined.

(** X10. On a handle already released, [query] neither releases again nor
    throws: with a function as callback it asks the client and calls the
    callback, with the error alone or with null and the result, and nothing
    else in the world changes. *)
Theorem query_on_released_handle (w : World) (l : loc) (o : DBConnectionObj)
      (sql values : jsval) (f : nat) :
  heap w !! l = Some o -> _released o = true ->
  let er := cl_query (client o) sql values in
  DBConnection.query l (Val sql) (Val values) (Val (JFun f)) w
  = (Normal tt,
     set_trace (fun t => t ++ [ClientQuery (cl_id (client o)) sql values;
                               UserCb f (if truthy (fst er) then [fst er] else [JNull; snd er])])
       w).
Proof.
  intros Hl Hr er.
  rewrite (query_body w l o (Val sql) (Val values) (Val (JFun f)) Hl eq_refl). cbv zeta.
  cbn [arg_value]. fold er.
  destruct (truthy (fst er)).
  - unfold bind. rewrite (release_released _ l o (JBool true)); [|exact Hl|exact Hr].
    unfold invoke, emit, set_trace. cbn. rewrite <- app_assoc. reflexivity.
  - unfold invoke, emit, set_trace. cbn. rewrite <- app_assoc. reflexivity.
Qed.

Lemma query_on_released_handle_witness :
  heap Sample.released_ok !! 0%nat = Some (Sample.handle Sample.ok_client true) /\
  DBConnection.query 0%nat (Val (JStr "SELECT 1")) (Val (JArr [])) (Val (JFun 5)) Sample.released_ok
  = (Normal tt,
     set_trace (fun t => t ++ [ClientQuery 1 (JStr "SELECT 1") (JArr []);
                               UserCb 5 [JNull; JObj 0]]) Sample.released_ok).
Proof.
  split; [reflexivity|].
  exact (query_on_released_handle Sample.released_ok 0%nat (Sample.handle Sample.ok_client true)
           (JStr "SELECT 1") (JArr []) 5 eq_refl eq_refl).
Defined.

(** X11. [query] called with no callback at all (the last argument missing
    and the one before it not a function) still sends the statement, with
    the empty array as values; when the client succeeds the result is lost
    in a TypeError, raised only after the client has answered. *)
Theorem query_without_callback (w : World) (l : loc) (o : DBConnectionObj)
      (sql values cb : jsval) :
  heap w !! l = Some o ->
  is_nullish cb = true -> (forall f, values <> JFun f) ->
  truthy (fst (cl_query (client o) sql (JArr []))) = false ->
  DBConnection.query l (Val sql) (Val values) (Val cb) w
  = (Throw (TypeError "not a function"),
     set_trace (fun t => t ++ [ClientQuery (cl_id (client o)) sql (JArr [])]) w).
Proof.
  intros Hl Hcb Hv He.
  rewrite (query_normalised w l o _ _ _ Hl). cbv zeta.
  cbn [arg_nullish]. rewrite Hcb. cbn [fst snd arg_value]. rewrite He.
  destruct values; try reflexivity. exfalso. exact (Hv id eq_refl).
Qed.

Lemma query_without_callback_witness :
  heap Sample.live_ok !! 0%nat = Some (Sample.handle Sample.ok_client false) /\
  DBConnection.query 0%nat (Val (JStr "SELECT 1")) (Val JUndefined) (Val JUndefined) Sample.live_ok
  = (Throw (TypeError "not a function"),
     set_trace (fun t => t ++ [ClientQuery 1 (JStr "SELECT 1") (JArr [])]) Sample.live_ok).
Proof.
  split; [reflexivity|].
  apply (query_without_callback Sample.live_ok 0%nat (Sample.handle Sample.ok_client false)
           (JStr "SELECT 1") JUndefined JUndefined eq_refl eq_refl).
  - intros f H. discriminate H.
  - reflexivity.
Defined.

(** ** More on commit and rollback *)




(** X13. With a function as callback, [commit] and [rollback] call it at
    most once.  When they return normally they have called it exactly once,
    as their last act, with the client's error alone if the statement failed
    and with null alone if it succeeded.  They can only throw while
    releasing a handle that was live, and then have not called back. *)
Theorem terminal_calls_back_once (k : terminal) (w : World) (t : DBTransactionObj)
      (o : DBConnectionObj) (f : nat) :
  heap w !! conn t = Some o ->
  let er := cl_query (client o) (terminal_sql k) (JArr []) in
  let r := run_terminal k t (Val (JFun f)) w in
  exists tl,
    user_calls tl = [] /\
    ((fst r = Normal tt /\
      trace (snd r) = trace w ++ tl ++ [UserCb f [if truthy (fst er) then fst er else JNull]]) \/
     (_released o = false /\ (exists e, fst r = Throw e) /\ trace (snd r) = trace w ++ tl)).
Proof.
  intros Hl er. cbv zeta.
  rewrite (terminal_body k w t o (Val (JFun f)) Hl). cbv zeta. fold er.
  set (q := ClientQuery (cl_id (client o)) (terminal_sql k) (JArr [])).
  unfold maybe_call. cbn [arg_truthy truthy invoke].
  destruct (truthy (fst er)); unfold bind, emit; cbv beta iota.
  - set (w1 := set_trace (fun tr => tr ++ [q]) w).
    assert (Hl1 : heap w1 !! conn t = Some o) by exact Hl.
    destruct (_released o) eqn:Hr.
    + rewrite (release_released w1 (conn t) o _ Hl1 Hr). cbv beta iota.
      exists [q; failure_metric k]. split; [destruct k; reflexivity|]. left.
      cbn. split; [reflexivity | rewrite <- !app_assoc; reflexivity].
    + rewrite (release_live w1 (conn t) o _ Hl1 Hr).
      destruct (pool_lookup _) as [u|e]; cbv beta iota.
      * exists [q; ReleaseCb (rf_id (releaseFn o)) (JBool true);
                ConsoleLog "db.txn_conn_pool.release.count" (JNum (Int u)); failure_metric k].
        split; [destruct k; reflexivity|]. left.
        cbn. split; [reflexivity | rewrite <- !app_assoc; reflexivity].
      * exists [q; ReleaseCb (rf_id (releaseFn o)) (JBool true)].
        split; [reflexivity|]. right. split; [reflexivity|].
        split; [exists e; reflexivity|]. cbn. rewrite <- !app_assoc. reflexivity.
  - set (w2 := set_trace (fun t0 => t0 ++ [success_metric k]) (set_trace (fun tr => tr ++ [q]) w)).
    assert (Hl2 : heap w2 !! conn t = Some o) by exact Hl.
    destruct (_released o) eqn:Hr.
    + rewrite (release_released w2 (conn t) o _ Hl2 Hr). cbv beta iota.
      exists [q; success_metric k]. split; [destruct k; reflexivity|]. left.
      cbn. split; [reflexivity | rewrite <- !app_assoc; reflexivity].
    + rewrite (release_live w2 (conn t) o _ Hl2 Hr).
      destruct (pool_lookup _) as [u|e]; cbv beta iota.
      * exists [q; success_metric k; ReleaseCb (rf_id (releaseFn o)) (JBool true);
                ConsoleLog "db.txn_conn_pool.release.count" (JNum (Int u))].
        split; [destruct k; reflexivity|]. left.
        cbn. split; [reflexivity | rewrite <- !app_assoc; reflexivity].
      * exists [q; success_metric k; ReleaseCb (rf_id (releaseFn o)) (JBool true)].
        split; [destruct k; reflexivity|]. right. split; [reflexivity|].
        split; [exists e; reflexivity|]. cbn. rewrite <- !app_assoc. reflexivity.
Qed.

Lemma terminal_calls_back_once_witness :
  heap Sample.live_failing !! conn Sample.txn0 = Some (Sample.handle Sample.failing_client false) /\
  exists tl,
    user_calls tl = [] /\
    ((fst (run_terminal Commit Sample.txn0 (Val (JFun 5)) Sample.live_failing) = Normal tt /\
      trace (snd (run_terminal Commit Sample.txn0 (Val (JFun 5)) Sample.live_failing))
      = trace Sample.live_failing ++ tl ++ [UserCb 5 [Sample.dbErr]]) \/
     (_released (Sample.handle Sample.failing_client false) = false /\
      (exists e, fst (run_terminal Commit Sample.txn0 (Val (JFun 5)) Sample.live_failing) = Throw e) /\
      trace (snd (run_terminal Commit Sample.txn0 (Val (JFun 5)) Sample.live_failing))
      = trace Sample.live_failing ++ tl)).
Proof.
  split; [reflexivity|].
  exact (terminal_calls_back_once Commit Sample.live_failing Sample.txn0
           (Sample.handle Sample.failing_client false) 5 eq_refl).
Defined.

(** A terminal statement that succeeds: one release, in dispose mode, if the
    handle was live, none otherwise; the heap changes by that flag only. *)
Lemma terminal_success_effect (k : terminal) (w : World) (t : DBTransactionObj)
      (o : DBConnectionObj) (cb : jsval) :
  heap w !! conn t = Some o ->
  truthy (fst (cl_query (client o) (terminal_sql k) (JArr []))) = false ->
  let w' := snd (run_terminal k t (Val cb) w) in
  exists tl,
    trace w' = trace w ++ tl /\
    release_events tl
    = (if _released o then [] else [ReleaseCb (rf_id (releaseFn o)) (JBool true)]) /\
    heap w' = (if _released o then heap w else <[conn t := set_released true o]> (heap w)).
Proof.
  intros Hl He. cbv zeta.
  rewrite (terminal_body k w t o (Val cb) Hl). cbv zeta. rewrite He.
  set (q := ClientQuery (cl_id (client o)) (terminal_sql k) (JArr [])).
  unfold bind, emit. cbv beta iota.
  set (w2 := set_trace (fun t0 => t0 ++ [success_metric k]) (set_trace (fun tr => tr ++ [q]) w)).
  assert (Hl2 : heap w2 !! conn t = Some o) by exact Hl.
  destruct (release_effect w2 (conn t) o (JBool true) Hl2) as [tl1 [Ht1 [Hh1 Hn1]]].
  assert (Ht2 : trace w2 = trace w ++ [q; success_metric k]).
  { unfold w2. cbn. rewrite <- app_assoc. reflexivity. }
  assert (Hq : release_events [q; success_metric k] = []) by (destruct k; reflexivity).
  destruct (DBConnection.release (conn t) (JBool true) w2) as [[[]|e] w3]; cbn [snd] in *.
  - destruct (quiet_maybe_call cb [JNull] w3) as [tl2 [Ht3 [Hn3 Hh3]]].
    exists ([q; success_metric k] ++ tl1 ++ tl2).
    rewrite Ht3, Ht1, Ht2, Hh3, Hh1, !release_events_app, Hq, Hn1, Hn3, <- !app_assoc, app_nil_r.
    repeat split.
  - exists ([q; success_metric k] ++ tl1).
    rewrite Ht1, Ht2, Hh1, !release_events_app, Hq, Hn1, <- !app_assoc.
    repeat split.
Qed.

(** X14. The whole of a transaction that goes well: after a [begin] whose
    checkout and BEGIN succeed, a [commit] or [rollback] that succeeds on the
    transaction [begin] passed to its callback calls the release callback
    that came with that checkout, once, with dispose=true; it is the only
    release callback called from the start of [begin], and the handle ends
    released. *)
Theorem begin_then_terminal_releases_once (k : terminal) (config : jsval) (f : nat)
      (cb : jsval) (w : World) :
  is_nullish (co_err (connect_outcome config w)) = true ->
  let oc := connect_outcome config w in
  let c := length (heap w) in
  truthy (fst (cl_query (co_client oc) (JStr "BEGIN") (JArr []))) = false ->
  truthy (fst (cl_query (co_client oc) (terminal_sql k) (JArr []))) = false ->
  let w1 := snd (DBConnection.begin config (Val (JFun f)) w) in
  let w2 := snd (run_terminal k {| conn := c |} (Val cb) w1) in
  exists tl,
    trace w2 = trace w ++ tl /\
    In (UserCb f [JNull; JTxn {| conn := c |}]) tl /\
    release_events tl = [ReleaseCb (rf_id (co_release oc)) (JBool true)] /\
    released_at c w2 = Some true.
Proof.
  intros He oc c Hb Hk w1 w2.
  set (o := new_handle oc).
  assert (Hw1 : w1 = set_trace (fun t => t ++ [UserCb f [JNull; JTxn {| conn := c |}]])
                       (set_trace (fun t => t ++ [ConsoleLog "db.txn.begin.success" (JNum (Int 1))])
                          (set_trace (fun t => t ++ [ClientQuery (cl_id (client o)) (JStr "BEGIN") (JArr [])])
                             (got_world config w)))).
  { unfold w1. rewrite (begin_body config _ w He). cbv zeta.
    change (client (new_handle (connect_outcome config w))) with (co_client oc).
    rewrite Hb. reflexivity. }
  assert (Hl1 : heap w1 !! conn {| conn := c |} = Some o).
  { rewrite Hw1. exact (got_world_handle config w). }
  destruct (terminal_success_effect k w1 {| conn := c |} o cb Hl1 Hk) as [tl [Ht [Hn Hh]]].
  fold w2 in Ht, Hh. cbn [_released o new_handle conn] in Hn, Hh.
  assert (Hg : exists gtl, trace (got_world config w) = trace w ++ gtl /\ release_events gtl = []).
  { rewrite got_world_trace.
    destruct (pool_lookup (after_connect config w)); eexists; split; reflexivity. }
  destruct Hg as [gtl [Hgt Hgn]].
  exists (gtl ++ [ClientQuery (cl_id (client o)) (JStr "BEGIN") (JArr []);
                  ConsoleLog "db.txn.begin.success" (JNum (Int 1));
                  UserCb f [JNull; JTxn {| conn := c |}]] ++ tl).
  split; [|split; [|split]].
  - rewrite Ht, Hw1. cbn [trace set_trace]. rewrite Hgt, <- !app_assoc. reflexivity.
  - apply in_or_app. right. cbn. right. right. left. reflexivity.
  - rewrite !release_events_app, Hgn, Hn. reflexivity.
  - unfold released_at. rewrite Hh. rewrite list_lookup_insert_eq; [reflexivity|].
    apply lookup_lt_Some in Hl1. exact Hl1.
Qed.

Lemma begin_then_terminal_releases_once_witness :
  is_nullish (co_err (connect_outcome (JObj 9) Sample.fresh_ok)) = true /\
  exists tl,
    trace (snd (run_terminal Commit {| conn := 0%nat |} (Val (JFun 6))
                  (snd (DBConnection.begin (JObj 9) (Val (JFun 5)) Sample.fresh_ok))))
    = trace Sample.fresh_ok ++ tl /\
    In (UserCb 5 [JNull; JTxn {| conn := 0%nat |}]) tl /\
    release_events tl = [ReleaseCb 7 (JBool true)] /\
    released_at 0%nat
      (snd (run_terminal Commit {| conn := 0%nat |} (Val (JFun 6))
              (snd (DBConnection.begin (JObj 9) (Val (JFun 5)) Sample.fresh_ok)))) = Some true.
Proof.
  split; [reflexivity|].
  exact (begin_then_terminal_releases_once Commit (JObj 9) 5 (JFun 6) Sample.fresh_ok
           eq_refl eq_refl eq_refl).
Defined.

(** ** More on the pool size and the pool utilization *)







(** X17. What [begin] hands to a callback that is a function, in every
    world: it calls it at most once.  When [begin] returns normally it has
    called it exactly once, as its last act, either with an error alone,
    which is truthy, or with null and a transaction on a new handle that is
    on the heap and not released; never with both, never with neither.
    When [begin] throws it has not called back. *)
Theorem begin_calls_back_error_or_transaction (config : jsval) (f : nat) (w : World) :
  let r := DBConnection.begin config (Val (JFun f)) w in
  let c := length (heap w) in
  exists tl,
    trace (snd r) = trace w ++ tl /\
    (((exists e, fst r = Throw e) /\ user_calls tl = []) \/
     (fst r = Normal tt /\
      exists pre args,
        tl = pre ++ [UserCb f args] /\ user_calls pre = [] /\
        ((exists e, args = [e] /\ truthy e = true) \/
         (args = [JNull; JTxn {| conn := c |}] /\ released_at c (snd r) = Some false)))).
Proof.
  cbv zeta. destruct (is_nullish (co_err (connect_outcome config w))) eqn:He.
  - assert (Hg : exists gtl, trace (got_world config w) = trace w ++ gtl /\ user_calls gtl = []).
    { rewrite got_world_trace.
      destruct (pool_lookup (after_connect config w)); eexists; split; reflexivity. }
    destruct Hg as [gtl [Hgt Hgn]].
    rewrite (begin_body config _ w He). cbv zeta.
    set (o := new_handle (connect_outcome config w)).
    set (q := ClientQuery (cl_id (client o)) (JStr "BEGIN") (JArr [])).
    set (er := cl_query (client o) (JStr "BEGIN") (JArr [])).
    pose proof (got_world_handle config w) as Hl. fold o in Hl.
    remember (got_world config w) as g eqn:Hg0. clear Hg0.
    set (w1 := set_trace (fun t => t ++ [q]) g).
    change (heap g) with (heap w1) in Hl.
    destruct (truthy (fst er)) eqn:Ht; unfold bind.
    + rewrite (release_live w1 _ o _ Hl eq_refl).
      destruct (pool_lookup _) as [u|e].
      * exists (gtl ++ [q; ReleaseCb (rf_id (releaseFn o)) (JBool true);
                        ConsoleLog "db.txn_conn_pool.release.count" (JNum (Int u));
                        ConsoleLog "db.txn.begin.error" (JNum (Int 1));
                        UserCb f [fst er]]).
        cbn. rewrite Hgt, <- !app_assoc. split; [reflexivity|]. right.
        split; [reflexivity|].
        exists (gtl ++ [q; ReleaseCb (rf_id (releaseFn o)) (JBool true);
                        ConsoleLog "db.txn_conn_pool.release.count" (JNum (Int u));
                        ConsoleLog "db.txn.begin.error" (JNum (Int 1))]), [fst er].
        split; [rewrite <- !app_assoc; reflexivity|].
        split; [rewrite user_calls_app, Hgn; reflexivity|].
        left. exists (fst er). split; [reflexivity | exact Ht].
      * exists (gtl ++ [q; ReleaseCb (rf_id (releaseFn o)) (JBool true)]).
        cbn. rewrite Hgt, <- !app_assoc. split; [reflexivity|]. left.
        split; [exists e; reflexivity|]. rewrite user_calls_app, Hgn. reflexivity.
    + exists (gtl ++ [q; ConsoleLog "db.txn.begin.success" (JNum (Int 1));
                      UserCb f [JNull; JTxn {| conn := length (heap w) |}]]).
      cbn. rewrite Hgt, <- !app_assoc. split; [reflexivity|]. right.
      split; [reflexivity|].
      exists (gtl ++ [q; ConsoleLog "db.txn.begin.success" (JNum (Int 1))]),
             [JNull; JTxn {| conn := length (heap w) |}].
      split; [rewrite <- !app_assoc; reflexivity|].
      split; [rewrite user_calls_app, Hgn; reflexivity|].
      right. split; [reflexivity|].
      exact (f_equal (option_map _released) Hl).
  - unfold DBConnection.begin. rewrite (get_refused config _ w He).
    cbn [invoke param nth].
    destruct (truthy (co_err (connect_outcome config w))) eqn:Ht.
    + exists [PgConnect config; UserCb f [co_err (connect_outcome config w)]].
      cbn. rewrite after_connect_trace, <- app_assoc. split; [reflexivity|]. right.
      split; [reflexivity|].
      exists [PgConnect config], [co_err (connect_outcome config w)].
      split; [reflexivity|]. split; [reflexivity|].
      left. eexists. split; [reflexivity | exact Ht].
    + exists [PgConnect config]. cbn. rewrite after_connect_trace.
      split; [reflexivity|]. left. split; [eexists; reflexivity | reflexivity].
Qed.

(** ** A connection from checkout to release *)

(** X18. The use the library is made for: [get], a query that succeeds on
    the handle [get] passed to its callback, then [release(dispose)].  The
    two callbacks are called once each, in that order, the second with null
    and the client's result; the release callback that came with the
    checkout is called once, with the caller's dispose argument, and it is
    the only one called; the handle ends released, and any further
    [release] on it does nothing. *)
Theorem get_query_release_flow (config sql values dispose : jsval) (f g : nat) (w : World) :
  is_nullish (co_err (connect_outcome config w)) = true ->
  let oc := connect_outcome config w in
  let c := length (heap w) in
  truthy (fst (cl_query (co_client oc) sql values)) = false ->
  let w1 := snd (DBConnection.get config (Val (JFun f)) w) in
  let w2 := snd (DBConnection.query c (Val sql) (Val values) (Val (JFun g)) w1) in
  let w3 := snd (DBConnection.release c dispose w2) in
  (exists tl,
     trace w3 = trace w ++ tl /\
     user_calls tl = [UserCb f [co_err oc; JConn c];
                      UserCb g [JNull; snd (cl_query (co_client oc) sql values)]] /\
     release_events tl = [ReleaseCb (rf_id (co_release oc)) dispose]) /\
  released_at c w3 = Some true /\
  (forall d, DBConnection.release c d w3 = (Normal tt, w3)).
Proof.
  intros He oc c Hq w1 w2 w3.
  set (o := new_handle oc).
  assert (Hg : exists gtl, trace (got_world config w) = trace w ++ gtl /\
                           user_calls gtl = [] /\ release_events gtl = []).
  { rewrite got_world_trace.
    destruct (pool_lookup (after_connect config w)); eexists; repeat split; reflexivity. }
  destruct Hg as [gtl [Hgt [Hgu Hgr]]].
  pose proof (got_world_handle config w) as Hl. fold oc o c in Hl.
  assert (Hw1 : w1 = set_trace (fun t => t ++ [UserCb f [co_err oc; JConn c]]) (got_world config w)).
  { unfold w1. rewrite (get_checked_out config _ w He). reflexivity. }
  remember (got_world config w) as gw eqn:Hg0. clear Hg0.
  assert (Hl1 : heap w1 !! c = Some o) by (rewrite Hw1; exact Hl).
  assert (Hw2 : w2 = set_trace (fun t => t ++ [ClientQuery (cl_id (client o)) sql values;
                                               UserCb g [JNull; snd (cl_query (client o) sql values)]])
                       w1).
  { unfold w2. rewrite (query_success w1 c o (Val sql) (Val values) g Hl1 Hq). reflexivity. }
  assert (Hl2 : heap w2 !! c = Some o) by (rewrite Hw2; exact Hl1).
  assert (Ht2 : trace w2 = trace w ++ gtl ++ [UserCb f [co_err oc; JConn c];
                                              ClientQuery (cl_id (client o)) sql values;
                                              UserCb g [JNull; snd (cl_query (client o) sql values)]]).
  { rewrite Hw2, Hw1. cbn [trace set_trace]. rewrite Hgt, <- !app_assoc. reflexivity. }
  assert (Hend : (exists rtl, trace w3 = trace w2 ++ ReleaseCb (rf_id (releaseFn o)) dispose :: rtl /\
                              user_calls rtl = [] /\ release_events rtl = []) /\
                 heap w3 !! c = Some (set_released true o)).
  { unfold w3. rewrite (release_live w2 c o dispose Hl2 eq_refl).
    assert (Hh : heap (released_world c o dispose w2) !! c = Some (set_released true o)).
    { cbn. apply list_lookup_insert_eq. apply lookup_lt_Some in Hl2. exact Hl2. }
    destruct (pool_lookup _) as [u|e]; cbn [snd].
    - split; [|exact Hh]. eexists [_]. cbn. rewrite <- app_assoc. repeat split.
    - split; [|exact Hh]. exists []. repeat split. }
  destruct Hend as [[rtl [Ht3 [Hru Hrr]]] Hl3].
  split; [|split].
  - exists (gtl ++ [UserCb f [co_err oc; JConn c];
                    ClientQuery (cl_id (client o)) sql values;
                    UserCb g [JNull; snd (cl_query (client o) sql values)]]
                ++ ReleaseCb (rf_id (releaseFn o)) dispose :: rtl).
    split; [rewrite Ht3, Ht2, <- !app_assoc; reflexivity|].
    split.
    + rewrite !user_calls_app, Hgu. cbn. fold (user_calls rtl). rewrite Hru. reflexivity.
    + rewrite !release_events_app, Hgr. cbn. fold (release_events rtl). rewrite Hrr. reflexivity.
  - exact (f_equal (option_map _released) Hl3).
  - intros d. apply (release_released w3 c (set_released true o) d Hl3). reflexivity.
Qed.

Lemma get_query_release_flow_witness :
  is_nullish (co_err (connect_outcome (JObj 9) Sample.fresh_ok)) = true /\
  let w3 := snd (DBConnection.release 0%nat JUndefined
                   (snd (DBConnection.query 0%nat (Val (JStr "SELECT 1 AS foo")) (Val (JArr []))
                           (Val (JFun 6))
                           (snd (DBConnection.get (JObj 9) (Val (JFun 5)) Sample.fresh_ok))))) in
  (exists tl,
     trace w3 = trace Sample.fresh_ok ++ tl /\
     user_calls tl = [UserCb 5 [JNull; JConn 0%nat]; UserCb 6 [JNull; JObj 0]] /\
     release_events tl = [ReleaseCb 7 JUndefined]) /\
  released_at 0%nat w3 = Some true.
Proof.
  split; [reflexivity|].
  destruct (get_query_release_flow (JObj 9) (JStr "SELECT 1 AS foo") (JArr []) JUndefined 5 6
              Sample.fresh_ok eq_refl eq_refl) as [H1 [H2 _]].
  split; [exact H1 | exact H2].
Defined.
